(** * smartDraft: the double-Q training loop of [src/trainNetwork.py]

    A shallow embedding of [trainNetwork], [create_target_update_ops],
    [create_target_initialization_ops], [validate_model] and [score_match],
    followed by the properties of the training schedule, the target
    computation, the target synchronisation and the validation scoring.

    Conventions of the embedding.
    - Python floats are modelled by exact rationals [Q]; literals such as
      [0.01] or [1.e-6] are the rationals they denote.  Equalities between
      computed numbers are stated with [==] (equality of rational values),
      and with [=] where the code stores a value unchanged.
    - A Python exception (failed [assert], [IndexError], [KeyError],
      [ValueError]) is the result [None] of a computation in [option].
    - The TensorFlow session is the map [Session] from a variable scope to
      the values of its trainable variables; running an operation is a
      function on that map.
    - The global state of Python's [random] module is threaded explicitly.
    - [DraftState], the match adapter [mp], the reward function and the two
      networks are collaborators defined outside this module; they enter as
      interfaces.  Console output and wall-clock timing are left out. *)

From Stdlib Require Import QArith Qminmax ZArith Lia Lqa.
From stdpp Require Import base option list gmap strings pretty.

Open Scope Q_scope.

(** ** Python and NumPy primitives used by the module *)

(** [x > y], [x >= y] and [x < y] on floats. *)
Definition Qgtb (x y : Q) : bool := negb (Qle_bool x y).
Definition Qgeb (x y : Q) : bool := Qle_bool y x.
Definition Qltb (x y : Q) : bool := negb (Qle_bool y x).

(** [l[i]] for a Python list or a NumPy axis: a negative index counts from
    the end, an index outside [-len, len) raises [IndexError]. *)
Definition py_getitem {A} (l : list A) (i : Z) : option A :=
  if decide (0 ≤ i)%Z then l !! Z.to_nat i
  else if decide (- Z.of_nat (length l) ≤ i)%Z
       then l !! Z.to_nat (Z.of_nat (length l) + i)
       else None.

(** [np.max] of a one-dimensional array; a zero-size array has no maximum
    and the reduction raises [ValueError]. *)
Definition np_max (row : list Q) : option Q :=
  match row with
  | [] => None
  | q :: qs => Some (foldl Qmax q qs)
  end.

(** [np.max(m, axis=1)]: the maximum of every row. *)
Definition np_max_axis1 (m : list (list Q)) : option (list Q) :=
  mapM np_max m.

(** [np.stack(arrays, axis=0)] raises [ValueError] on an empty list. *)
Definition np_stack {A} (arrays : list A) : option (list A) :=
  match arrays with
  | [] => None
  | _ => Some arrays
  end.

(** A loop [for x in xs: st = body(st, x)] whose body may raise. *)
Fixpoint foldM {S A} (body : S → A → option S) (st : S) (xs : list A)
  : option S :=
  match xs with
  | [] => Some st
  | x :: xs' => st' ← body st x; foldM body st' xs'
  end.

(** ** The replay buffer [experienceReplay.ExperienceBuffer] *)

Module er.

(** Modelled from the spec: the class [ExperienceBuffer] of
    [experienceReplay.py] is not part of the sources at hand.  Section 3
    and 4.1 of the specification describe it as a bounded sequence with
    capacity [C] and FIFO eviction. *)
Record ExperienceBuffer (A : Type) := mkBuffer {
  buffer_size : nat;
  buffer : list A
}.
Arguments mkBuffer {A} _ _.
Arguments buffer_size {A} _.
Arguments buffer {A} _.

(** Modelled from the spec: [ExperienceBuffer(C)] is an empty buffer of
    capacity [C]. *)
Definition new {A} (capacity : nat) : ExperienceBuffer A :=
  mkBuffer capacity [].

(** Modelled from the spec: [store(experiences)] "appends each element,
    evicting oldest entries once capacity is exceeded". *)
Definition store1 {A} (b : ExperienceBuffer A) (x : A) : ExperienceBuffer A :=
  let grown := buffer b ++ [x] in
  mkBuffer (buffer_size b) (drop (length grown - buffer_size b) grown).

Definition store {A} (experiences : list A) (b : ExperienceBuffer A)
  : ExperienceBuffer A :=
  foldl store1 b experiences.

(** Modelled from the spec: [size()] "returns current occupancy". *)
Definition getBufferSize {A} (b : ExperienceBuffer A) : nat :=
  length (buffer b).

End er.

(** ** Collaborators *)

(** Values found in a match dictionary. *)
Inductive pyval :=
| PyNone
| PyInt (n : Z)
| PyStr (s : string)
| PyInts (l : list Z).

(** A match record is a Python [dict] with string keys. *)
Abbreviation Match := (gmap string pyval).

(** [v == 1] for a dictionary value [v]. *)
Definition py_eq_int (v : pyval) (n : Z) : bool :=
  match v with
  | PyInt k => bool_decide (k = n)
  | _ => false
  end.

(** [DraftState.BLUE_TEAM] and [DraftState.RED_TEAM]. *)
Inductive Team := BLUE_TEAM | RED_TEAM.

#[global] Instance Team_eq_dec : EqDecision Team.
Proof. solve_decision. Defined.

(** An action is a pair [(cid, pos)]; [cid] is [None] for a missing ban. *)
Definition Action : Type := option Z * Z.

(** An experience is the tuple [(state, action, reward, next_state)]. *)
Definition Experience (DraftState : Type) : Type :=
  DraftState * Action * Q * DraftState.

(** The methods and constants of [draftstate.DraftState] that the module
    calls.  [updateState] mutates a deep copy in the source; here it returns
    the updated copy. *)
Class DraftStateAPI (DraftState Encoding : Type) := {
  formatState : DraftState → Encoding;
  formatAction : DraftState → Z → Action;
  getAction : DraftState → option Z → Z → Z;
  updateState : DraftState → option Z → Z → DraftState;
  evaluateState : DraftState → Z;
  DRAFT_COMPLETE : Z;
  BAN_AND_SUBMISSION : Z;
  DUPLICATE_SUBMISSION : Z;
  DUPLICATE_ROLE : Z;
  INVALID_SUBMISSION : Z;
  invalid_states : list Z
}.

(** [matchProcessing.processMatch] and [rewards.getReward]. *)
Class MatchAPI (DraftState : Type) := {
  processMatch : Match → Team → list (Experience DraftState);
  getReward : DraftState → Match → Q
}.

(** Python's [random] module over an explicit generator state: [random()]
    draws a float, [choose population k] is the choice that
    [sample(population, k)] makes when [k] does not exceed the size of the
    population. *)
Class RandomAPI (Rng : Type) := {
  random_random : Rng → Q * Rng;
  random_choose : ∀ A : Type, list A → nat → Rng → list A * Rng
}.

(** [random.sample(population, k)]: [ValueError] when the sample is larger
    than the population. *)
Definition random_sample `{RandomAPI Rng} {A} (population : list A) (k : nat)
    (g : Rng) : option (list A * Rng) :=
  if decide (k ≤ length population)%nat
  then Some (random_choose A population k g)
  else None.

(** Modelled from the spec: [ExperienceBuffer.sample(n)] "fails with an error
    if [n] exceeds current size; otherwise returns [n] elements drawn
    uniformly at random without replacement". *)
Definition er_sample `{RandomAPI Rng} {A} (b : er.ExperienceBuffer A) (n : nat)
    (g : Rng) : option (list A * Rng) :=
  random_sample (er.buffer b) n g.

(** The session holds the trainable variables of the graph: for every
    variable scope, one value per variable created under it. *)
Abbreviation Session := (gmap string (list Q)).

(** [tf.get_collection(tf.GraphKeys.TRAINABLE_VARIABLES, scope=scope)]: the
    variables under [scope], none when the scope is unknown. *)
Definition get_collection (sess : Session) (scope : string) : list Q :=
  default [] (sess !! scope).

(** A [qNetwork]: its graph outputs as functions of its parameters and of
    the values fed to its placeholders.  [update] is one optimiser step at
    the given learning rate. *)
Record qNetwork (Encoding : Type) := mkNet {
  name : string;
  discount_factor : Q;
  learning_rate : Q;
  outQ : list Q → list Encoding → list (list Q);
  prediction : list Q → list Encoding → list Z;
  loss : list Q → list Encoding → list Z → list Q → Q;
  update : Q → list Q → list Encoding → list Z → list Q → list Q
}.
Arguments name {Encoding} _.
Arguments discount_factor {Encoding} _.
Arguments learning_rate {Encoding} _.
Arguments outQ {Encoding} _ _ _.
Arguments prediction {Encoding} _ _ _.
Arguments loss {Encoding} _ _ _ _ _.
Arguments update {Encoding} _ _ _ _ _ _.

(** ** Target synchronisation *)

(** [create_target_update_ops]: one assignment
    [target_params[i] := tau*online_params[i] + (1-tau)*target_params[i]]
    for every [i in range(len(target_params))], grouped in one operation.
    The result is the session after that operation has run; indexing
    [online_params[i]] past the end of the list raises [IndexError]. *)
Definition create_target_update_ops (sess : Session)
    (target_scope online_scope : string) (tau : Q) : option Session :=
  let target_params := get_collection sess target_scope in
  let online_params := get_collection sess online_scope in
  ops ← mapM (λ i, t ← target_params !! i;
                   o ← online_params !! i;
                   Some (tau * o + (1 - tau) * t))
             (seq 0 (length target_params));
  Some (<[target_scope := ops]> sess).

(** [create_target_initialization_ops]: the update with [tau = 1.0]. *)
Definition create_target_initialization_ops (sess : Session)
    (target_scope online_scope : string) : option Session :=
  create_target_update_ops sess target_scope online_scope 1.0.

(** ** Scoring, validation and the training loop *)

Section training.

Context {DraftState Encoding Rng : Type}.
Context `{!DraftStateAPI DraftState Encoding, !MatchAPI DraftState,
          !RandomAPI Rng}.

Abbreviation Exp := (Experience DraftState).
Abbreviation Net := (qNetwork Encoding).

(** [sess.run(net.outQ, feed_dict={net.input: inputs})] and its siblings
    evaluate a network on the variables the session holds under its scope. *)
Definition run_outQ (sess : Session) (net : Net) (inputs : list Encoding)
  : list (list Q) :=
  outQ net (get_collection sess (name net)) inputs.

Definition run_prediction (sess : Session) (net : Net)
    (inputs : list Encoding) : list Z :=
  prediction net (get_collection sess (name net)) inputs.

(** *** [score_match] *)

(** The first loop of [score_match]: the action index and the encoded start
    state of every experience whose [cid] is not [None]. *)
Definition score_inputs (experiences : list Exp) : list Z * list Encoding :=
  foldl (λ '(actions, states) exp,
           let '(start, (cid, pos), _, _) := exp in
           match cid with
           | None => (actions, states)
           | Some _ => (actions ++ [getAction start cid pos],
                        states ++ [formatState start])
           end)
        ([], []) experiences.

(** The second loop: [score += predicted_Q[i, actions[i]]] for
    [i in range(len(actions))]. *)
Definition score_sum (actions : list Z) (predicted_Q : list (list Q))
  : option Q :=
  foldM (λ score i, a ← actions !! i;
                    row ← predicted_Q !! i;
                    q ← py_getitem row a;
                    Some (score + q))
        0 (seq 0 (length actions)).

Definition score_match (sess : Session) (Qnet : Net) (m : Match)
    (team : Team) : option Q :=
  let experiences := processMatch m team in
  let '(actions, states) := score_inputs experiences in
  stacked ← np_stack states;
  let predicted_Q := run_outQ sess Qnet stacked in
  guard (length actions = length predicted_Q);;
  score_sum actions predicted_Q.

(** *** [validate_model] *)

(** [RED_TEAM if match["winner"]==1 else BLUE_TEAM]; a dictionary without
    the key raises [KeyError]. *)
Definition winning_team (m : Match) : option Team :=
  w ← m !! "winner";
  Some (if py_eq_int w 1 then RED_TEAM else BLUE_TEAM).

(** The first loop: the experiences of the winning side of every match,
    those with a [None] action left out, go to the validation buffer. *)
Definition store_unless_null (val_replay : er.ExperienceBuffer Exp)
    (exp : Exp) : er.ExperienceBuffer Exp :=
  let '(_, (cid, pos), _, _) := exp in
  match cid with
  | None => val_replay
  | Some _ => er.store [exp] val_replay
  end.

Definition val_store (val_replay : er.ExperienceBuffer Exp) (m : Match)
  : option (er.ExperienceBuffer Exp) :=
  team ← winning_team m;
  let experiences := processMatch m team in
  Some (foldl store_unless_null val_replay experiences).

(** The target of one validation experience (the body of the loop over
    [range(n_experiences)]). *)
Definition val_target (sess : Session) (online_net target_net : Net)
    (exp : Exp) : option Q :=
  let '(start, act, rew, finish) := exp in
  if decide (evaluateState finish = DRAFT_COMPLETE) then Some rew
  else
    let predicted_Q := run_outQ sess target_net [formatState finish] in
    maxima ← np_max_axis1 predicted_Q;
    max_Q ← maxima !! 0%nat;
    Some (rew + discount_factor online_net * max_Q).

(** [predicted_winner] and the comparison with the recorded winner for one
    match; the result is the increment of [accurate_predictions]. *)
Definition predicted_winner (blue_score red_score : Q) : Team :=
  if Qgeb blue_score red_score then BLUE_TEAM else RED_TEAM.

Definition count_accurate (sess : Session) (online_net : Net)
    (accurate_predictions : Q) (m : Match) : option Q :=
  blue_score ← score_match sess online_net m BLUE_TEAM;
  red_score ← score_match sess online_net m RED_TEAM;
  match_winner ← winning_team m;
  Some (if decide (predicted_winner blue_score red_score = match_winner)
        then accurate_predictions + 1
        else accurate_predictions).

(** [validate_model] returns [(loss, val_accuracy)]; the generator state is
    returned with it because sampling the validation buffer consumes it. *)
Definition validate_model (sess : Session) (validation_data : list Match)
    (online_net target_net : Net) (g : Rng) : option (Q * Q * Rng) :=
  val_replay ← foldM val_store (er.new (10 * length validation_data))
                     validation_data;
  let n_experiences := er.getBufferSize val_replay in
  '(val_experiences, g') ← er_sample val_replay n_experiences g;
  _ ← val_experiences !! 0%nat;
  val_targets ← mapM (val_target sess online_net target_net) val_experiences;
  let val_states := (λ '(start, _, _, _), formatState start) <$> val_experiences in
  let val_actions :=
    (λ '(start, (cid, pos), _, _), getAction start cid pos) <$> val_experiences in
  let loss := loss online_net (get_collection sess (name online_net))
                   val_states val_actions val_targets in
  accurate_predictions ← foldM (count_accurate sess online_net) 0
                               validation_data;
  guard (length validation_data ≠ 0%nat);;
  Some (loss, accurate_predictions / inject_Z (Z.of_nat (length validation_data)), g').

(** *** [trainNetwork] *)

(** The hyperparameters fixed at the top of [trainNetwork]. *)
Definition tau : Q := 0.001.
Definition stash_model : bool := false.
Definition model_stash_interval : nat := 125.
Definition update_freq : nat := 1.
Definition lr_decay_freq : nat := 10.
Definition min_learning_rate : Q := 0.000001.
Definition blank_match : Match := {["winner" := PyNone]}.
Definition teams : list Team := [BLUE_TEAM; RED_TEAM].

(** What the training loop reads and writes: the session, the checkpoint
    files, the attribute [online_net.learning_rate], and the local variables
    of [trainNetwork]. *)
Record TrainState := mkState {
  sess : Session;
  files : gmap string (list Q);
  online_learning_rate : Q;
  epsilon : Q;
  rng : Rng;
  experience_replay : er.ExperienceBuffer Exp;
  total_steps : nat;
  bad_state_counts : gmap Z nat;
  learner_submitted_counts : nat;
  null_action_count : nat;
  loss_over_epochs : list Q;
  train_acc : option Q;
  out_path : option string
}.

Definition with_sess (x : Session) (st : TrainState) : TrainState :=
  mkState x (files st) (online_learning_rate st) (epsilon st) (rng st)
    (experience_replay st) (total_steps st) (bad_state_counts st)
    (learner_submitted_counts st) (null_action_count st)
    (loss_over_epochs st) (train_acc st) (out_path st).

Definition with_files (x : gmap string (list Q)) (st : TrainState)
  : TrainState :=
  mkState (sess st) x (online_learning_rate st) (epsilon st) (rng st)
    (experience_replay st) (total_steps st) (bad_state_counts st)
    (learner_submitted_counts st) (null_action_count st)
    (loss_over_epochs st) (train_acc st) (out_path st).

Definition with_learning_rate (x : Q) (st : TrainState) : TrainState :=
  mkState (sess st) (files st) x (epsilon st) (rng st)
    (experience_replay st) (total_steps st) (bad_state_counts st)
    (learner_submitted_counts st) (null_action_count st)
    (loss_over_epochs st) (train_acc st) (out_path st).

Definition with_epsilon (x : Q) (st : TrainState) : TrainState :=
  mkState (sess st) (files st) (online_learning_rate st) x (rng st)
    (experience_replay st) (total_steps st) (bad_state_counts st)
    (learner_submitted_counts st) (null_action_count st)
    (loss_over_epochs st) (train_acc st) (out_path st).

Definition with_rng (x : Rng) (st : TrainState) : TrainState :=
  mkState (sess st) (files st) (online_learning_rate st) (epsilon st) x
    (experience_replay st) (total_steps st) (bad_state_counts st)
    (learner_submitted_counts st) (null_action_count st)
    (loss_over_epochs st) (train_acc st) (out_path st).

Definition with_experience_replay (x : er.ExperienceBuffer Exp)
    (st : TrainState) : TrainState :=
  mkState (sess st) (files st) (online_learning_rate st) (epsilon st) (rng st)
    x (total_steps st) (bad_state_counts st)
    (learner_submitted_counts st) (null_action_count st)
    (loss_over_epochs st) (train_acc st) (out_path st).

Definition with_total_steps (x : nat) (st : TrainState) : TrainState :=
  mkState (sess st) (files st) (online_learning_rate st) (epsilon st) (rng st)
    (experience_replay st) x (bad_state_counts st)
    (learner_submitted_counts st) (null_action_count st)
    (loss_over_epochs st) (train_acc st) (out_path st).

Definition with_bad_state_counts (x : gmap Z nat) (st : TrainState)
  : TrainState :=
  mkState (sess st) (files st) (online_learning_rate st) (epsilon st) (rng st)
    (experience_replay st) (total_steps st) x
    (learner_submitted_counts st) (null_action_count st)
    (loss_over_epochs st) (train_acc st) (out_path st).

Definition with_learner_submitted_counts (x : nat) (st : TrainState)
  : TrainState :=
  mkState (sess st) (files st) (online_learning_rate st) (epsilon st) (rng st)
    (experience_replay st) (total_steps st) (bad_state_counts st)
    x (null_action_count st)
    (loss_over_epochs st) (train_acc st) (out_path st).

Definition with_null_action_count (x : nat) (st : TrainState) : TrainState :=
  mkState (sess st) (files st) (online_learning_rate st) (epsilon st) (rng st)
    (experience_replay st) (total_steps st) (bad_state_counts st)
    (learner_submitted_counts st) x
    (loss_over_epochs st) (train_acc st) (out_path st).

Definition with_epoch_stats (losses : list Q) (acc : Q) (st : TrainState)
  : TrainState :=
  mkState (sess st) (files st) (online_learning_rate st) (epsilon st) (rng st)
    (experience_replay st) (total_steps st) (bad_state_counts st)
    (learner_submitted_counts st) (null_action_count st)
    losses (Some acc) (out_path st).

Definition with_out_path (x : string) (st : TrainState) : TrainState :=
  mkState (sess st) (files st) (online_learning_rate st) (epsilon st) (rng st)
    (experience_replay st) (total_steps st) (bad_state_counts st)
    (learner_submitted_counts st) (null_action_count st)
    (loss_over_epochs st) (train_acc st) (Some x).

(** [experience_replay.store([experience])]. *)
Definition store_experience (experience : Exp) (st : TrainState)
  : TrainState :=
  with_experience_replay (er.store [experience] (experience_replay st)) st.

(** Modelled from the spec: [net.saver.save(sess, path)] persists "the online
    network's parameters" under [path] and returns the path; the saver is
    built in [qNetwork], outside the sources at hand. *)
Definition saver_save (net : Net) (path : string) (st : TrainState)
  : TrainState :=
  with_out_path path
    (with_files (<[path := get_collection (sess st) (name net)]> (files st)) st).

(** Modelled from the spec: [net.saver.restore(sess, path)] reads the
    parameters back; a missing checkpoint is an error. *)
Definition saver_restore (net : Net) (path : string)
    (files : gmap string (list Q)) (sess : Session) : option Session :=
  blob ← files !! path;
  Some (<[name net := blob]> sess).

(** The learner's own submission for [state], taken once [total_steps] has
    reached [observations]: an experience is added when the predicted action
    leads to an invalid state, or when it differs from the recorded action
    [a] and a random draw falls below [epsilon]. *)
Definition learner_submission (online_net : Net) (state : DraftState)
    (a : Action) (st : TrainState) : option TrainState :=
  pred_act ← run_prediction (sess st) online_net [formatState state] !! 0%nat;
  let '(cid, pos) := formatAction state pred_act in
  let pred_state := updateState state cid pos in
  let state_code := evaluateState pred_state in
  if decide (state_code ∈ invalid_states) then
    n ← bad_state_counts st !! state_code;
    let st := with_bad_state_counts
                (<[state_code := S n]> (bad_state_counts st)) st in
    let r := getReward pred_state blank_match in
    let new_experience := (state, formatAction state pred_act, r, pred_state) in
    Some (store_experience new_experience st)
  else if decide (getAction state a.1 a.2 ≠ pred_act) then
    let '(draw, g) := random_random (rng st) in
    let st := with_rng g st in
    if Qltb draw (epsilon st) then
      let st := with_learner_submitted_counts
                  (S (learner_submitted_counts st)) st in
      let r := getReward pred_state blank_match in
      let new_experience :=
        (state, formatAction state pred_act, r, pred_state) in
      Some (store_experience new_experience st)
    else Some st
  else Some st.

(** The target of one sampled experience (the body of the loop over
    [training_batch]). *)
Definition batch_target (sess : Session) (online_net target_net : Net)
    (exp : Exp) : option Q :=
  let '(startState, _, reward, endingState) := exp in
  if decide (evaluateState endingState = DRAFT_COMPLETE) then Some reward
  else
    let predictedQ := run_outQ sess target_net [formatState endingState] in
    maxima ← np_max_axis1 predictedQ;
    maxQ ← maxima !! 0%nat;
    Some (reward + discount_factor online_net * maxQ).

(** One training update: sample a batch, compute its targets, update the
    online network, then blend the target network towards it.  The action
    indices are computed by the [getAction] of [startState], which the loop
    over the batch has left bound to the start state of its last element. *)
Definition train_on_batch (online_net target_net : Net) (batch_size : nat)
    (st : TrainState) : option TrainState :=
  '(training_batch, g) ← er_sample (experience_replay st) batch_size (rng st);
  updates ← mapM (batch_target (sess st) online_net target_net) training_batch;
  guard (length updates = batch_size);;
  let actions :=
    match last training_batch with
    | Some (startState, _, _, _) =>
        (λ '(_, (cid, pos), _, _), getAction startState cid pos)
          <$> training_batch
    | None => []
    end in
  inputs ← np_stack ((λ '(start, _, _, _), formatState start)
                       <$> training_batch);
  let theta := update online_net (online_learning_rate st)
                 (get_collection (sess st) (name online_net))
                 inputs actions updates in
  sess' ← create_target_update_ops (<[name online_net := theta]> (sess st))
            (name target_net) (name online_net) tau;
  Some (with_sess sess' (with_rng g st)).

(** The per-step decrement of [epsilon]. *)
Definition epsilon_decay (num_episodes train_epochs : nat) (epsilon : Q) : Q :=
  if Qgtb epsilon 0.01
  then epsilon - 1 / inject_Z (Z.of_nat (10 * num_episodes * train_epochs))
  else epsilon.

(** The body of the loop over the experiences of one match and team. *)
Definition experience_step (online_net target_net : Net)
    (num_episodes train_epochs batch_size : nat)
    (st : TrainState) (experience : Exp) : option TrainState :=
  let pre_training_steps := (10 * batch_size)%nat in
  let observations := (2 * pre_training_steps)%nat in
  let '(state, a, rew, _) := experience in
  let '(cid, pos) := a in
  match cid with
  | None => Some (with_null_action_count (S (null_action_count st)) st)
  | Some _ =>
      let st := store_experience experience st in
      st ← (if decide (observations ≤ total_steps st)%nat
            then learner_submission online_net state a st
            else Some st);
      let st := with_epsilon
                  (epsilon_decay num_episodes train_epochs (epsilon st)) st in
      let st := with_total_steps (S (total_steps st)) st in
      if decide (pre_training_steps ≤ total_steps st
                 ∧ total_steps st mod update_freq = 0)%nat
      then train_on_batch online_net target_net batch_size st
      else Some st
  end.

(** The learning-rate schedule applied at the start of epoch [i]. *)
Definition decay_learning_rate (i : nat) (lr : Q) : Q :=
  if bool_decide (0 < i ∧ i mod lr_decay_freq = 0)%nat
     && Qgeb lr min_learning_rate
  then 0.50 * lr
  else lr.

(** The path of the checkpoint written at the end of every epoch, and of
    the copy stashed at epoch [i]. *)
Definition checkpoint_path (train_epochs : nat) : string :=
  "tmp/model_E" +:+ pretty train_epochs +:+ ".ckpt".

Definition stash_path (i : nat) : string :=
  "tmp/models/model_E" +:+ pretty i +:+ ".ckpt".

(** The body of the loop [for i in range(train_epochs)]. *)
Definition epoch (online_net target_net : Net)
    (training_matches validation_matches : list Match)
    (train_epochs batch_size buffer_size : nat)
    (st : TrainState) (i : nat) : option TrainState :=
  let st := with_learning_rate
              (decay_learning_rate i (online_learning_rate st)) st in
  let st := with_experience_replay (er.new buffer_size) st in
  let st := with_total_steps 0 st in
  let st := with_bad_state_counts
              (<[BAN_AND_SUBMISSION := 0%nat]>
                 (<[DUPLICATE_SUBMISSION := 0%nat]>
                    (<[DUPLICATE_ROLE := 0%nat]>
                       {[INVALID_SUBMISSION := 0%nat]}))) st in
  let st := with_learner_submitted_counts 0 st in
  let st := with_null_action_count 0 st in
  '(shuffled_matches, g) ←
    random_sample training_matches (length training_matches) (rng st);
  let st := with_rng g st in
  st ← foldM (λ st m,
        foldM (λ st team,
          foldM (experience_step online_net target_net
                   (length training_matches) train_epochs batch_size)
                st (processMatch m team))
          st teams)
        st shuffled_matches;
  '(val_loss, val_acc, g) ←
    validate_model (sess st) validation_matches online_net target_net (rng st);
  '(loss, acc, g) ←
    validate_model (sess st) training_matches online_net target_net g;
  let st := with_epoch_stats (loss_over_epochs st ++ [loss]) acc
              (with_rng g st) in
  let st := if stash_model
            then if bool_decide (0 < i ∧ i mod model_stash_interval = 0)%nat
                 then saver_save online_net (stash_path i) st
                 else st
            else st in
  Some (saver_save online_net (checkpoint_path train_epochs) st).

(** The state in which the first epoch starts. *)
Definition initial_state (online_net : Net) (sess : Session)
    (files : gmap string (list Q)) (g : Rng) : TrainState :=
  mkState sess files (learning_rate online_net) 1 g (er.new 0) 0 ∅ 0 0 [] None None.

(** [trainNetwork] returns [(loss_over_epochs, train_acc)]; the final state
    is returned with it.  [sess0] holds the values that
    [tf.global_variables_initializer()] gives the variables, [files0] the
    checkpoints on disk and [g0] the state of the random generator.
    Building the update operation raises under the same condition as
    building and running the initialisation, which is done first. *)
Definition trainNetwork (sess0 : Session) (files0 : gmap string (list Q))
    (g0 : Rng) (online_net target_net : Net)
    (training_matches validation_matches : list Match)
    (train_epochs batch_size buffer_size : nat) (load_model : bool)
  : option (list Q * Q * TrainState) :=
  let pre_training_steps := (10 * batch_size)%nat in
  guard (pre_training_steps ≤ buffer_size)%nat;;
  sess ← (if load_model
          then saver_restore online_net "tmp/model.ckpt" files0 sess0
          else Some sess0);
  sess ← create_target_initialization_ops sess (name target_net)
           (name online_net);
  st ← foldM (epoch online_net target_net training_matches
                validation_matches train_epochs batch_size buffer_size)
             (initial_state online_net sess files0 g0)
             (seq 0 train_epochs);
  acc ← train_acc st;
  Some (loss_over_epochs st, acc, st).

End training.

(** * Notions used to state the properties *)

(** [m] is a maximum of [row]. *)
Definition is_max_of (row : list Q) (m : Q) : Prop :=
  m ∈ row ∧ ∀ q, q ∈ row → q <= m.

(** The sum of a list of floats. *)
Definition Qsum (qs : list Q) : Q := foldr Qplus 0 qs.

(** [epsilon] after [N] steps of the experience loop, and the closed form:
    the per-step decrement and the number of steps after which [epsilon] is
    no longer above [0.01]. *)
Definition epsilon_after (M E N : nat) : Q :=
  Nat.iter N (epsilon_decay M E) 1.



(** [online_net.learning_rate] once [epochs] epochs have begun. *)
Fixpoint learning_rate_after (lr0 : Q) (epochs : nat) : Q :=
  match epochs with
  | O => lr0
  | S i => decay_learning_rate i (learning_rate_after lr0 i)
  end.

Section notions.

Context {DraftState Encoding Rng : Type}.
Context `{!DraftStateAPI DraftState Encoding, !MatchAPI DraftState,
          !RandomAPI Rng}.

Abbreviation Exp := (Experience DraftState).
Abbreviation Net := (qNetwork Encoding).
Abbreviation State := (@TrainState DraftState Rng).

(** The components of an experience that the loops look at. *)
Definition cid_of (exp : Exp) : option Z :=
  let '(_, (cid, _), _, _) := exp in cid.

Definition action_index (exp : Exp) : Z :=
  let '(start, (cid, pos), _, _) := exp in getAction start cid pos.

Definition start_encoding (exp : Exp) : Encoding :=
  let '(start, _, _, _) := exp in formatState start.

(** The action of an experience is not the null action. *)
Definition non_null (exp : Exp) : Prop := is_Some (cid_of exp).

(** The target network answers a one-state batch with at least one row,
    and no row is empty. *)
Definition well_shaped (sess : Session) (target_net : Net) : Prop :=
  ∀ enc, ∃ row rest, run_outQ sess target_net [enc] = row :: rest
                     ∧ Forall (λ r, r ≠ []) (row :: rest).

(** What the target of an experience has to be. *)
Definition target_spec (sess : Session) (online_net target_net : Net)
    (exp : Exp) (u : Q) : Prop :=
  let '(_, _, reward, ending) := exp in
  (evaluateState ending = DRAFT_COMPLETE → u = reward)
  ∧ (evaluateState ending ≠ DRAFT_COMPLETE →
     ∃ row rest m,
       run_outQ sess target_net [formatState ending] = row :: rest
       ∧ is_max_of row m
       ∧ u = reward + discount_factor online_net * m).

(** Every experience in the training buffer has a non-null action. *)
Definition all_non_null (st : State) : Prop :=
  Forall non_null (er.buffer (experience_replay st)).

(** The part of the state that the experience loop does not write. *)
Definition kept (st : State)
  : gmap string (list Q) * Q * list Q * option Q * option string :=
  (files st, online_learning_rate st, loss_over_epochs st, train_acc st,
   out_path st).

(** An experience counts as a step when its action is not null; the steps
    of a match are those of both teams. *)
Definition steps_of (experiences : list Exp) : nat :=
  length (filter non_null experiences).

Definition match_steps (m : Match) : nat :=
  (steps_of (processMatch m BLUE_TEAM) + steps_of (processMatch m RED_TEAM))%nat.

Definition epoch_steps (matches : list Match) : nat :=
  foldr (λ m n, (match_steps m + n)%nat) 0%nat matches.

(** The replay buffer holds at least [min(buffer_size, total_steps)]
    experiences. *)
Definition buffer_filled (capacity : nat) (st : State) : Prop :=
  er.buffer_size (experience_replay st) = capacity
  ∧ (length (er.buffer (experience_replay st)) ≤ capacity)%nat
  ∧ (capacity `min` total_steps st
     ≤ length (er.buffer (experience_replay st)))%nat.

End notions.

(** * A small instance

    A concrete draft state, adapter, generator and pair of networks on which
    the embedding can be run. *)

Module example.

(** A draft state is the list of champion ids submitted so far. *)
#[export] Instance draft : DraftStateAPI (list Z) (list Z) := {|
  formatState s := s;
  formatAction s a := (Some a, 0%Z);
  getAction s cid pos := default (-1)%Z cid;
  updateState s cid pos := match cid with Some c => s ++ [c] | None => s end;
  evaluateState s :=
    if bool_decide (NoDup s)
    then if bool_decide (10 ≤ length s)%nat then 1%Z else 0%Z
    else 102%Z;
  DRAFT_COMPLETE := 1%Z;
  BAN_AND_SUBMISSION := 101%Z;
  DUPLICATE_SUBMISSION := 102%Z;
  DUPLICATE_ROLE := 103%Z;
  INVALID_SUBMISSION := 104%Z;
  invalid_states := [101; 102; 103; 104]%Z
|}.

(** The reward of a state: one when it completes the draft of the side
    that won. *)
Definition reward (m : Match) (team : Team) (s : list Z) : Q :=
  if bool_decide (10 ≤ length s)%nat
     && bool_decide (winning_team m = Some team)
  then 1 else 0.

(** Ten submissions per side, preceded by one missing ban. *)
Definition picks (team : Team) : list Z :=
  match team with
  | BLUE_TEAM => [0; 1; 2; 3; 4; 5; 6; 7; 8; 9]%Z
  | RED_TEAM => [10; 11; 1; 2; 3; 4; 5; 6; 7; 8]%Z
  end.

Fixpoint replay (m : Match) (team : Team) (s : list Z) (cids : list Z)
  : list (Experience (list Z)) :=
  match cids with
  | [] => []
  | c :: cids' =>
      (s, (Some c, 0%Z), reward m team (s ++ [c]), s ++ [c])
        :: replay m team (s ++ [c]) cids'
  end.

#[export] Instance adapter : MatchAPI (list Z) := {|
  processMatch m team :=
    ([], (None, (-1)%Z), 0, []) :: replay m team [] (picks team);
  getReward s m := if bool_decide (NoDup s) then 0 else -1
|}.

(** A generator that always draws [0.5] and samples the first elements. *)
#[export] Instance generator : RandomAPI unit := {|
  random_random g := (0.5, g);
  random_choose A population k g := (take k population, g)
|}.

(** A network with a fixed table of Q-values, the same for every state;
    an update adds one to every parameter. *)
Definition table_net (scope : string) (table : list Q) : qNetwork (list Z) := {|
  name := scope;
  discount_factor := 0.9;
  learning_rate := 0.001;
  outQ theta inputs := (λ _, table) <$> inputs;
  prediction theta inputs := (λ _, 0%Z) <$> inputs;
  loss theta inputs actions targets := 0;
  update lr theta inputs actions targets := (λ q, q + 1) <$> theta
|}.

Definition online_net : qNetwork (list Z) :=
  table_net "online" [1; 2; 3; 4; 5; 6; 7; 8; 9; 10; 11; 12].
Definition target_net : qNetwork (list Z) :=
  table_net "target" [3; 1; 4; 1; 5; 9; 2; 6; 5; 3; 5; 8].

(** A network that returns [Q = 0] for every state and action. *)
Definition zero_net : qNetwork (list Z) :=
  table_net "online" (replicate 12 0).

Definition blue_won : Match := {["winner" := PyInt 0]}.
Definition red_won : Match := {["winner" := PyInt 1]}.
Definition unknown : Match := {["winner" := PyNone]}.

Definition sess0 : Session := <["online" := [1; 2]]> {["target" := [0; 0]]}.

(** Two training matches, one validation match, two epochs, batches of one
    experience and a buffer of ten. *)
Definition training_matches : list Match := [blue_won; red_won].
Definition validation_matches : list Match := [unknown].

Definition state0 : @TrainState (list Z) unit :=
  initial_state online_net sess0 ∅ ().

(** The state in which the experience loop of an epoch starts. *)
Definition loop_start : @TrainState (list Z) unit :=
  with_bad_state_counts
    (<[101%Z := 0%nat]>
       (<[102%Z := 0%nat]> (<[103%Z := 0%nat]> {[104%Z := 0%nat]})))
    (with_experience_replay (er.new 10) state0).

End example.

(** * Properties *)

(** ** Target synchronisation *)

Section target_sync.

Implicit Types (sess : Session) (tau : Q).

(** The grouped assignments as a function of the two parameter vectors. *)
Lemma blend_ops_Some (tp op : list Q) tau :
  (length tp ≤ length op)%nat →
  mapM (λ i, t ← tp !! i; o ← op !! i; Some (tau * o + (1 - tau) * t))
       (seq 0 (length tp))
  = Some (zip_with (λ t o, tau * o + (1 - tau) * t) tp op).
Proof.
  intros Hlen. apply mapM_Some, Forall2_same_length_lookup.
  split.
  - rewrite length_seq, length_zip_with. lia.
  - intros i j y Hj Hy. apply lookup_seq in Hj as [-> Hi]. simpl.
    apply lookup_zip_with_Some in Hy as (t & o & -> & Ht & Ho).
    by rewrite Ht, Ho.
Qed.

Lemma blend_ops_None (tp op : list Q) tau :
  (length op < length tp)%nat →
  mapM (λ i, t ← tp !! i; o ← op !! i; Some (tau * o + (1 - tau) * t))
       (seq 0 (length tp))
  = None.
Proof.
  intros Hlen. apply mapM_None, Exists_exists.
  exists (length op). split.
  - apply elem_of_seq. lia.
  - destruct (lookup_lt_is_Some_2 tp (length op) Hlen) as [t ->]. simpl.
    by rewrite (lookup_ge_None_2 op (length op)).
Qed.

Lemma create_target_update_ops_Some sess target_scope online_scope tau :
  (length (get_collection sess target_scope)
   ≤ length (get_collection sess online_scope))%nat →
  create_target_update_ops sess target_scope online_scope tau
  = Some (<[target_scope :=
              zip_with (λ t o, tau * o + (1 - tau) * t)
                (get_collection sess target_scope)
                (get_collection sess online_scope)]> sess).
Proof.
  intros Hlen. unfold create_target_update_ops.
  by rewrite blend_ops_Some.
Qed.

Lemma get_collection_insert sess scope params :
  get_collection (<[scope := params]> sess) scope = params.
Proof. unfold get_collection. by rewrite lookup_insert_eq. Qed.

Lemma get_collection_insert_ne sess scope scope' params :
  scope ≠ scope' →
  get_collection (<[scope := params]> sess) scope' = get_collection sess scope'.
Proof. intros. unfold get_collection. by rewrite lookup_insert_ne. Qed.

Lemma Forall2_Qeq_refl (l : list Q) : Forall2 Qeq l l.
Proof. induction l; constructor; [reflexivity | done]. Qed.

Lemma zip_with_blend_one (tp op : list Q) tau :
  tau == 1 → length tp = length op →
  Forall2 Qeq (zip_with (λ t o, tau * o + (1 - tau) * t) tp op) op.
Proof.
  intros Htau. revert op.
  induction tp as [|t tp IH]; intros [|o op] Hlen; simplify_eq/=;
    constructor; [rewrite Htau; ring | auto].
Qed.

Lemma zip_with_blend_zero (tp op : list Q) tau :
  tau == 0 → length tp = length op →
  Forall2 Qeq (zip_with (λ t o, tau * o + (1 - tau) * t) tp op) tp.
Proof.
  intros Htau. revert op.
  induction tp as [|t tp IH]; intros [|o op] Hlen; simplify_eq/=;
    constructor; [rewrite Htau; ring | auto].
Qed.

(** C7. For target and online parameter sets of the same size, the update
    with [tau = 1.0] leaves the target parameters equal to the online ones,
    the initialisation (the hard copy) is that very update, and the update
    with [tau = 0.0] leaves every target parameter with the value it had. *)
Theorem soft_update_tau_one_and_zero sess target_scope online_scope :
  length (get_collection sess target_scope)
  = length (get_collection sess online_scope) →
  create_target_initialization_ops sess target_scope online_scope
  = create_target_update_ops sess target_scope online_scope 1.0
  ∧ (∃ sess', create_target_update_ops sess target_scope online_scope 1.0
              = Some sess'
      ∧ Forall2 Qeq (get_collection sess' target_scope)
                    (get_collection sess online_scope)
      ∧ Forall2 Qeq (get_collection sess' online_scope)
                    (get_collection sess online_scope))
  ∧ (∃ sess', create_target_update_ops sess target_scope online_scope 0.0
              = Some sess'
      ∧ Forall2 Qeq (get_collection sess' target_scope)
                    (get_collection sess target_scope)).
Proof.
  intros Hlen. split; [done|]. split.
  - eexists. split; [apply create_target_update_ops_Some; lia|].
    rewrite get_collection_insert. split.
    + by apply zip_with_blend_one.
    + destruct (decide (target_scope = online_scope)) as [->|Hne].
      * rewrite get_collection_insert. by apply zip_with_blend_one.
      * rewrite get_collection_insert_ne by done. apply Forall2_Qeq_refl.
  - eexists. split; [apply create_target_update_ops_Some; lia|].
    rewrite get_collection_insert. by apply zip_with_blend_zero.
Qed.

(** C8, as the code has it.  The hard copy fails exactly when the online
    set has fewer parameters than the target set; surplus online parameters
    are not looked at. *)
Theorem hard_copy_fails_iff_online_shorter sess target_scope online_scope :
  create_target_initialization_ops sess target_scope online_scope = None
  ↔ (length (get_collection sess online_scope)
     < length (get_collection sess target_scope))%nat.
Proof.
  unfold create_target_initialization_ops, create_target_update_ops.
  split.
  - intros Hnone.
    destruct (decide (length (get_collection sess online_scope)
                      < length (get_collection sess target_scope))%nat)
      as [|Hge]; [done|].
    rewrite blend_ops_Some in Hnone by lia. done.
  - intros Hlt. by rewrite blend_ops_None.
Qed.

End target_sync.

(** ** Target values *)

Lemma Qmax_cases (x y : Q) :
  (Qmax x y = x ∧ y <= x) ∨ (Qmax x y = y ∧ x <= y).
Proof.
  unfold Qmax, GenericMinMax.gmax.
  destruct (x ?= y) eqn:Hc.
  - left. split; [done|]. apply Qeq_alt in Hc. rewrite Hc. apply Qle_refl.
  - right. split; [done|]. apply Qlt_alt in Hc. by apply Qlt_le_weak.
  - left. split; [done|]. apply Qgt_alt in Hc. by apply Qlt_le_weak.
Qed.

Lemma foldl_Qmax_is_max (q : Q) (qs : list Q) :
  is_max_of (q :: qs) (foldl Qmax q qs).
Proof.
  revert q. induction qs as [|x qs IH]; intros q; simpl.
  - split; [apply list_elem_of_here|].
    intros y ->%list_elem_of_singleton. apply Qle_refl.
  - destruct (IH (Qmax q x)) as [Hin Hub]. split.
    + apply elem_of_cons in Hin as [Heq|Hin].
      * rewrite Heq. destruct (Qmax_cases q x) as [[-> _]|[-> _]].
        -- apply list_elem_of_here.
        -- apply list_elem_of_further, list_elem_of_here.
      * by do 2 apply list_elem_of_further.
    + intros y Hy.
      assert (Hm : Qmax q x <= foldl Qmax (Qmax q x) qs)
        by apply Hub, list_elem_of_here.
      apply elem_of_cons in Hy as [->|Hy].
      * eapply Qle_trans; [|exact Hm].
        destruct (Qmax_cases q x) as [[-> _]|[-> ?]]; [apply Qle_refl|done].
      * apply elem_of_cons in Hy as [->|Hy].
        -- eapply Qle_trans; [|exact Hm].
           destruct (Qmax_cases q x) as [[-> ?]|[-> _]]; [done|apply Qle_refl].
        -- by apply Hub, list_elem_of_further.
Qed.

Lemma np_max_is_max (row : list Q) :
  row ≠ [] → ∃ m, np_max row = Some m ∧ is_max_of row m.
Proof.
  destruct row as [|q qs]; [done|]. intros _.
  eexists. split; [done|]. apply foldl_Qmax_is_max.
Qed.

Lemma np_max_axis1_head (row : list Q) (rest : list (list Q)) :
  Forall (λ r, r ≠ []) (row :: rest) →
  ∃ m maxima, np_max_axis1 (row :: rest) = Some (m :: maxima)
              ∧ is_max_of row m.
Proof.
  intros Hrows. apply Forall_cons in Hrows as [Hrow Hrest].
  destruct (np_max_is_max row Hrow) as (m & Hm & Hmax).
  assert (is_Some (mapM np_max rest)) as [maxima Hmaxima].
  { apply mapM_is_Some. eapply Forall_impl; [exact Hrest|].
    intros r Hr. destruct (np_max_is_max r Hr) as (mr & Hmr & _).
    unfold compose. rewrite Hmr. by eexists. }
  exists m, maxima. split; [|done].
  unfold np_max_axis1 in *. simpl. rewrite Hm. simpl. by rewrite Hmaxima.
Qed.

Section target_values.

Context {DraftState Encoding : Type}.
Context `{!DraftStateAPI DraftState Encoding}.

Abbreviation Exp := (Experience DraftState).
Abbreviation Net := (qNetwork Encoding).

Lemma batch_target_spec sess online_net target_net (exp : Exp) :
  well_shaped sess target_net →
  ∃ u, batch_target sess online_net target_net exp = Some u
       ∧ val_target sess online_net target_net exp = Some u
       ∧ target_spec sess online_net target_net exp u.
Proof.
  intros Hnet. destruct exp as [[[start act] reward] ending].
  unfold batch_target, val_target, target_spec.
  destruct (decide (evaluateState ending = DRAFT_COMPLETE)) as [Hterm|Hterm].
  - exists reward. repeat split; done.
  - destruct (Hnet (formatState ending)) as (row & rest & Hrun & Hrows).
    destruct (np_max_axis1_head row rest Hrows) as (m & maxima & Hmax & Hm).
    rewrite Hrun, Hmax. simpl.
    eexists. repeat split; [done|].
    intros _. by exists row, rest, m.
Qed.

(** C1. For every batch handed to the training update and for every list of
    experiences gathered by [validate_model], the targets are computed, one
    per experience: the reward itself when the resulting state is complete,
    and otherwise the reward plus the discount factor times a maximum of the
    target network's Q-estimates for the resulting state. *)
Theorem target_values sess online_net target_net (batch : list Exp) :
  well_shaped sess target_net →
  ∃ updates,
    mapM (batch_target sess online_net target_net) batch = Some updates
    ∧ mapM (val_target sess online_net target_net) batch = Some updates
    ∧ Forall2 (target_spec sess online_net target_net) batch updates.
Proof.
  intros Hnet. induction batch as [|exp batch (updates & Hb & Hv & Hspec)].
  - exists []. repeat split; constructor.
  - destruct (batch_target_spec sess online_net target_net exp Hnet)
      as (u & Hbu & Hvu & Hu).
    exists (u :: updates). simpl. rewrite Hbu, Hvu. simpl.
    fold (mapM (batch_target sess online_net target_net) batch).
    fold (mapM (val_target sess online_net target_net) batch).
    rewrite Hb, Hv. repeat split; by constructor.
Qed.

End target_values.

(** ** The loops of one epoch *)

Section loop_frame.

Context {DraftState Encoding Rng : Type}.
Context `{!DraftStateAPI DraftState Encoding, !MatchAPI DraftState,
          !RandomAPI Rng}.

Abbreviation Exp := (Experience DraftState).
Abbreviation Net := (qNetwork Encoding).
Abbreviation State := (@TrainState DraftState Rng).

Lemma learner_submission_frame (online_net : Net) state a (st st' : State) :
  learner_submission online_net state a st = Some st' →
  kept st' = kept st ∧ epsilon st' = epsilon st.
Proof.
  unfold learner_submission. intros Hrun.
  repeat (case_match || simplify_option_eq); done.
Qed.

Lemma train_on_batch_frame (online_net target_net : Net) batch_size
    (st st' : State) :
  train_on_batch online_net target_net batch_size st = Some st' →
  kept st' = kept st ∧ epsilon st' = epsilon st.
Proof.
  unfold train_on_batch. intros Hrun.
  repeat (case_match || simplify_option_eq); done.
Qed.

Lemma experience_step_frame (online_net target_net : Net) M E batch_size
    (st st' : State) (exp : Exp) :
  experience_step online_net target_net M E batch_size st exp = Some st' →
  kept st' = kept st
  ∧ epsilon st' = match cid_of exp with
                  | Some _ => epsilon_decay M E (epsilon st)
                  | None => epsilon st
                  end.
Proof.
  unfold experience_step. intros Hrun.
  destruct exp as [[[state [cid pos]] rew] ending].
  cbv beta iota zeta in Hrun. unfold cid_of.
  destruct cid as [c|]; [|by simplify_eq].
  apply bind_Some in Hrun as (st1 & Hlearn & Htrain).
  assert (kept st1 = kept st ∧ epsilon st1 = epsilon st) as [Hk1 He1].
  { destruct (decide _) in Hlearn.
    - by apply learner_submission_frame in Hlearn as [-> ->].
    - by simplify_eq. }
  destruct (decide _) in Htrain.
  - apply train_on_batch_frame in Htrain as [-> ->].
    split; [exact Hk1|simpl; by rewrite He1].
  - injection Htrain as <-. split; [exact Hk1|simpl; by rewrite He1].
Qed.

Lemma experience_loop_frame (online_net target_net : Net) M E batch_size
    (experiences : list Exp) (st st' : State) :
  foldM (experience_step online_net target_net M E batch_size) st experiences
  = Some st' →
  kept st' = kept st
  ∧ epsilon st'
    = Nat.iter (steps_of experiences) (epsilon_decay M E) (epsilon st).
Proof.
  revert st. induction experiences as [|exp exps IH]; intros st Hrun.
  - by simplify_eq/=.
  - simpl in Hrun. apply bind_Some in Hrun as (st1 & Hstep & Hrest).
    apply experience_step_frame in Hstep as [Hk1 He1].
    apply IH in Hrest as [Hk He]. split; [congruence|].
    rewrite He, He1. unfold steps_of.
    destruct (cid_of exp) as [c|] eqn:Hc.
    + rewrite filter_cons_True by (unfold non_null; rewrite Hc; by eexists).
      cbn [length]. by rewrite Nat.iter_succ_r.
    + rewrite filter_cons_False
        by (unfold non_null; rewrite Hc; by intros [??]).
      done.
Qed.

Lemma team_loop_frame (online_net target_net : Net) M E batch_size
    (m : Match) (st st' : State) :
  foldM (λ st team,
           foldM (experience_step online_net target_net M E batch_size)
                 st (processMatch m team))
        st teams = Some st' →
  kept st' = kept st
  ∧ epsilon st' = Nat.iter (match_steps m) (epsilon_decay M E) (epsilon st).
Proof.
  unfold teams. simpl. intros Hrun.
  apply bind_Some in Hrun as (st1 & Hblue & Hrun).
  apply bind_Some in Hrun as (st2 & Hred & Hrun).
  injection Hrun as <-.
  apply experience_loop_frame in Hblue as [Hk1 He1].
  apply experience_loop_frame in Hred as [Hk2 He2].
  split; [congruence|].
  unfold match_steps. rewrite Nat.add_comm, Nat.iter_add. congruence.
Qed.

Lemma match_loop_frame (online_net target_net : Net) M E batch_size
    (matches : list Match) (st st' : State) :
  foldM (λ st m,
           foldM (λ st team,
                    foldM (experience_step online_net target_net M E
                             batch_size)
                          st (processMatch m team))
                 st teams)
        st matches = Some st' →
  kept st' = kept st
  ∧ epsilon st' = Nat.iter (epoch_steps matches) (epsilon_decay M E)
                    (epsilon st).
Proof.
  revert st. induction matches as [|m ms IH]; intros st Hrun.
  - by simplify_eq/=.
  - cbn [foldM] in Hrun. apply bind_Some in Hrun as (st1 & Hm & Hms).
    apply team_loop_frame in Hm as [Hk1 He1].
    apply IH in Hms as [Hk He]. split; [congruence|].
    cbn [epoch_steps foldr]. fold (epoch_steps ms).
    rewrite Nat.add_comm, Nat.iter_add. congruence.
Qed.

(** What one epoch does to the schedule and to the checkpoints. *)
Lemma epoch_effect (online_net target_net : Net)
    (training_matches validation_matches : list Match)
    (train_epochs batch_size buffer_size : nat) (st st' : State) (i : nat) :
  epoch online_net target_net training_matches validation_matches
        train_epochs batch_size buffer_size st i = Some st' →
  online_learning_rate st'
  = decay_learning_rate i (online_learning_rate st)
  ∧ (∃ N, epsilon st'
          = Nat.iter N (epsilon_decay (length training_matches) train_epochs)
              (epsilon st))
  ∧ out_path st' = Some (checkpoint_path train_epochs)
  ∧ files st'
    = <[checkpoint_path train_epochs
        := get_collection (sess st') (name online_net)]> (files st)
  ∧ is_Some (train_acc st').
Proof.
  unfold epoch. intros Hrun.
  apply bind_Some in Hrun as ([shuffled g] & _ & Hrun).
  apply bind_Some in Hrun as (st1 & Hloop & Hrun).
  apply bind_Some in Hrun as ([[val_loss val_acc] g1] & _ & Hrun).
  apply bind_Some in Hrun as ([[loss acc] g2] & _ & Hrun).
  injection Hrun as <-.
  apply match_loop_frame in Hloop as [Hk He].
  unfold kept in Hk. injection Hk as Hfiles Hlr _ _ _.
  cbn in Hfiles, Hlr, He. cbn.
  repeat split; [done| |by rewrite Hfiles|by eexists].
  by eexists.
Qed.

End loop_frame.

(** ** The exploration schedule *)








Section schedule.

Variables M E : nat.
Hypothesis HM : (0 < M)%nat.
Hypothesis HE : (0 < E)%nat.

Let p := Pos.of_nat (10 * M * E).






End schedule.








(** ** The learning-rate schedule *)

Lemma Qgeb_true (x y : Q) : Qgeb x y = true ↔ y <= x.
Proof. unfold Qgeb. apply Qle_bool_iff. Qed.

Lemma decay_learning_rate_le (i : nat) (lr : Q) :
  decay_learning_rate i lr <= lr.
Proof.
  unfold decay_learning_rate.
  destruct (bool_decide _ && Qgeb lr min_learning_rate) eqn:Hcond;
    [|apply Qle_refl].
  apply andb_true_iff in Hcond as [_ Hmin]. apply Qgeb_true in Hmin.
  unfold min_learning_rate in Hmin. lra.
Qed.

(** C3.  The code at the failing input.  A network whose learning rate
    starts at [0.001], above [min_learning_rate]: before epoch 100 the rate
    is still at least [min_learning_rate], the halving at epoch 100 goes
    through, and the rate is then below [min_learning_rate]. *)
Theorem learning_rate_below_floor :
  min_learning_rate <= 0.001
  ∧ min_learning_rate <= learning_rate_after 0.001 100
  ∧ learning_rate_after 0.001 101 = 0.50 * learning_rate_after 0.001 100
  ∧ learning_rate_after 0.001 101 < min_learning_rate.
Proof. repeat split; by vm_compute. Qed.

(** ** Whole runs *)

Lemma foldM_app {S A} (body : S → A → option S) (st : S) (xs ys : list A) :
  foldM body st (xs ++ ys) = st' ← foldM body st xs; foldM body st' ys.
Proof.
  revert st. induction xs as [|x xs IH]; intros st; simpl; [done|].
  destruct (body st x) as [st1|]; simpl; [apply IH | done].
Qed.

Section runs.

Context {DraftState Encoding Rng : Type}.
Context `{!DraftStateAPI DraftState Encoding, !MatchAPI DraftState,
          !RandomAPI Rng}.

Abbreviation Net := (qNetwork Encoding).
Abbreviation State := (@TrainState DraftState Rng).

Lemma epochs_effect (online_net target_net : Net)
    (training_matches validation_matches : list Match)
    (train_epochs batch_size buffer_size : nat) (n : nat) (st st' : State) :
  foldM (epoch online_net target_net training_matches validation_matches
           train_epochs batch_size buffer_size) st (seq 0 n) = Some st' →
  online_learning_rate st' = learning_rate_after (online_learning_rate st) n
  ∧ (∃ N, epsilon st'
          = Nat.iter N (epsilon_decay (length training_matches) train_epochs)
              (epsilon st))
  ∧ ((0 < n)%nat →
     out_path st' = Some (checkpoint_path train_epochs)
     ∧ files st'
       = <[checkpoint_path train_epochs
           := get_collection (sess st') (name online_net)]> (files st)
     ∧ is_Some (train_acc st')).
Proof.
  revert st'. induction n as [|n IH]; intros st' Hrun.
  - injection Hrun as <-. split; [done|]. split; [by exists 0%nat|lia].
  - rewrite seq_S, foldM_app in Hrun.
    apply bind_Some in Hrun as (st1 & Hinit & Hlast).
    cbn [foldM] in Hlast. apply bind_Some in Hlast as (st2 & Hlast & Heq).
    injection Heq as <-.
    pose proof (IH _ Hinit) as (Hlr1 & [N1 He1] & Hsave1).
    apply epoch_effect in Hlast as (Hlr & [N2 He] & Hpath & Hfiles & Hacc).
    change (0 + n)%nat with n in Hlr.
    split; [cbn [learning_rate_after]; congruence|].
    split.
    { exists (N2 + N1)%nat. by rewrite Nat.iter_add, He, He1. }
    intros _. split; [done|]. split; [|done].
    rewrite Hfiles. destruct n as [|n].
    + by injection Hinit as <-.
    + destruct Hsave1 as (_ & -> & _); [lia|]. apply insert_insert_eq.
Qed.

(** A run that returns has gone through at least one epoch; its learning
    rate and [epsilon] follow the two schedules, and the one checkpoint it
    has written is the one named after [train_epochs]. *)
Lemma trainNetwork_effect (sess0 : Session) (files0 : gmap string (list Q))
    (g0 : Rng) (online_net target_net : Net)
    (training_matches validation_matches : list Match)
    (train_epochs batch_size buffer_size : nat) (load_model : bool)
    (losses : list Q) (acc : Q) (st : State) :
  trainNetwork sess0 files0 g0 online_net target_net training_matches
    validation_matches train_epochs batch_size buffer_size load_model
  = Some (losses, acc, st) →
  (0 < train_epochs)%nat
  ∧ online_learning_rate st
    = learning_rate_after (learning_rate online_net) train_epochs
  ∧ (∃ N, epsilon st = epsilon_after (length training_matches) train_epochs N)
  ∧ out_path st = Some (checkpoint_path train_epochs)
  ∧ files st
    = <[checkpoint_path train_epochs
        := get_collection (sess st) (name online_net)]> files0.
Proof.
  unfold trainNetwork. intros Hrun.
  apply bind_Some in Hrun as (_ & _ & Hrun).
  apply bind_Some in Hrun as (sess1 & _ & Hrun).
  apply bind_Some in Hrun as (sess2 & _ & Hrun).
  apply bind_Some in Hrun as (st1 & Hepochs & Hrun).
  apply bind_Some in Hrun as (acc1 & Hacc & Hrun).
  injection Hrun as <- <- <-.
  destruct train_epochs as [|n].
  { injection Hepochs as <-. discriminate Hacc. }
  apply epochs_effect in Hepochs as (Hlr & [N He] & Hsave).
  destruct Hsave as (Hpath & Hfiles & _); [lia|].
  split; [lia|]. split; [exact Hlr|]. split; [by exists N|]. done.
Qed.

End runs.

(** ** Null actions *)

Lemma store1_Forall {A} (P : A → Prop) (b : er.ExperienceBuffer A) (x : A) :
  Forall P (er.buffer b) → P x → Forall P (er.buffer (er.store1 b x)).
Proof.
  intros Hb Hx. unfold er.store1. simpl.
  apply Forall_drop, Forall_app. split; [done|by constructor].
Qed.

Lemma store_Forall {A} (P : A → Prop) (xs : list A)
    (b : er.ExperienceBuffer A) :
  Forall P (er.buffer b) → Forall P xs → Forall P (er.buffer (er.store xs b)).
Proof.
  unfold er.store. revert b.
  induction xs as [|x xs IH]; intros b Hb Hxs; simpl; [done|].
  apply Forall_cons in Hxs as [Hx Hxs]. apply IH; [|done].
  by apply store1_Forall.
Qed.

Section null_actions.

Context {DraftState Encoding Rng : Type}.
Context `{!DraftStateAPI DraftState Encoding, !MatchAPI DraftState,
          !RandomAPI Rng}.

Abbreviation Exp := (Experience DraftState).
Abbreviation Net := (qNetwork Encoding).
Abbreviation State := (@TrainState DraftState Rng).

Lemma store_experience_non_null (exp : Exp) (st : State) :
  all_non_null st → non_null exp → all_non_null (store_experience exp st).
Proof.
  intros Hst Hexp. unfold all_non_null, store_experience.
  apply (store_Forall non_null [exp]); [done|by constructor].
Qed.

Lemma learner_submission_non_null (online_net : Net) state a (st st' : State) :
  (∀ s act, is_Some (formatAction s act).1) →
  learner_submission online_net state a st = Some st' →
  all_non_null st → all_non_null st'.
Proof.
  intros Hformat Hrun Hst. unfold learner_submission in Hrun.
  apply bind_Some in Hrun as (pred_act & _ & Hrun).
  assert (Hnew : ∀ r pred_state,
            non_null (state, formatAction state pred_act, r, pred_state)).
  { intros r pred_state. unfold non_null, cid_of.
    specialize (Hformat state pred_act).
    by destruct (formatAction state pred_act). }
  destruct (formatAction state pred_act) as [cid pos] eqn:Hact.
  destruct (decide _) in Hrun.
  - apply bind_Some in Hrun as (n & _ & Hrun). injection Hrun as <-.
    by apply store_experience_non_null.
  - destruct (decide _) in Hrun; [|by injection Hrun as <-].
    destruct (random_random (rng st)) as [draw g].
    destruct (Qltb _ _) in Hrun; injection Hrun as <-; [|done].
    by apply store_experience_non_null.
Qed.

Lemma train_on_batch_replay (online_net target_net : Net) batch_size
    (st st' : State) :
  train_on_batch online_net target_net batch_size st = Some st' →
  experience_replay st' = experience_replay st.
Proof.
  unfold train_on_batch. intros Hrun.
  repeat (case_match || simplify_option_eq); done.
Qed.

Lemma experience_step_non_null (online_net target_net : Net) M E batch_size
    (st st' : State) (exp : Exp) :
  (∀ s act, is_Some (formatAction s act).1) →
  experience_step online_net target_net M E batch_size st exp = Some st' →
  all_non_null st → all_non_null st'.
Proof.
  intros Hformat Hrun Hst. unfold experience_step in Hrun.
  destruct exp as [[[state [cid pos]] rew] ending].
  cbv beta iota zeta in Hrun.
  destruct cid as [c|]; [|by injection Hrun as <-].
  apply bind_Some in Hrun as (st1 & Hlearn & Htrain).
  assert (all_non_null st1) as Hst1.
  { assert (all_non_null
              (store_experience (state, (Some c, pos), rew, ending) st)).
    { apply store_experience_non_null; [done|]. by eexists. }
    destruct (decide _) in Hlearn.
    - by eapply learner_submission_non_null.
    - by injection Hlearn as <-. }
  destruct (decide _) in Htrain.
  - apply train_on_batch_replay in Htrain.
    unfold all_non_null in *. by rewrite Htrain.
  - by injection Htrain as <-.
Qed.

Lemma store_unless_null_non_null (b : er.ExperienceBuffer Exp) (exp : Exp) :
  Forall non_null (er.buffer b) →
  Forall non_null (er.buffer (store_unless_null b exp)).
Proof.
  intros Hb. destruct exp as [[[state [cid pos]] rew] ending].
  unfold store_unless_null. destruct cid as [c|]; [|done].
  apply store_Forall; [done|]. constructor; [by eexists|done].
Qed.

Lemma val_store_non_null (b b' : er.ExperienceBuffer Exp) (m : Match) :
  val_store b m = Some b' →
  Forall non_null (er.buffer b) → Forall non_null (er.buffer b').
Proof.
  unfold val_store. intros Hrun Hb.
  apply bind_Some in Hrun as (team & _ & Hrun). injection Hrun as <-.
  revert b Hb. induction (processMatch m team) as [|exp exps IH];
    intros b Hb; simpl; [done|].
  by apply IH, store_unless_null_non_null.
Qed.

Lemma score_inputs_acc (experiences : list Exp) (actions : list Z)
    (states : list Encoding) :
  foldl (λ '(actions, states) exp,
           let '(start, (cid, pos), _, _) := exp in
           match cid with
           | None => (actions, states)
           | Some _ => (actions ++ [getAction start cid pos],
                        states ++ [formatState start])
           end)
        (actions, states) experiences
  = (actions ++ (action_index <$> filter non_null experiences),
     states ++ (start_encoding <$> filter non_null experiences)).
Proof.
  revert actions states.
  induction experiences as [|exp exps IH]; intros actions states; simpl.
  - by rewrite !app_nil_r.
  - destruct exp as [[[start [[c|] pos]] rew] ending].
    + rewrite IH, filter_cons_True by (by eexists).
      simpl. by rewrite <- !app_assoc.
    + rewrite IH, filter_cons_False by (by intros [??]). done.
Qed.

Lemma score_inputs_filter (experiences : list Exp) :
  score_inputs experiences
  = (action_index <$> filter non_null experiences,
     start_encoding <$> filter non_null experiences).
Proof. unfold score_inputs. by rewrite score_inputs_acc. Qed.

(** C5. Provided that [formatAction] never yields a null selection id,
    every experience held by the replay buffer of the training loop stays
    non-null across any run of the experience loop; the validation buffer
    filled by [validate_model] holds only non-null experiences; and the
    actions and states that [score_match] scores are exactly those of the
    non-null experiences of the match. *)
Theorem null_actions_skipped :
  (∀ (s : DraftState) act, is_Some (formatAction s act).1) →
  (∀ (online_net target_net : Net) M E batch_size experiences
     (st st' : State),
     foldM (experience_step online_net target_net M E batch_size)
           st experiences = Some st' →
     Forall non_null (er.buffer (experience_replay st)) →
     Forall non_null (er.buffer (experience_replay st')))
  ∧ (∀ (validation_data : list Match) capacity val_replay,
       foldM val_store (er.new capacity) validation_data = Some val_replay →
       Forall non_null (er.buffer val_replay))
  ∧ (∀ experiences : list Exp,
       score_inputs experiences
       = (action_index <$> filter non_null experiences,
          start_encoding <$> filter non_null experiences)
       ∧ Forall non_null (filter non_null experiences)).
Proof.
  intros Hformat. split; [|split].
  - intros online_net target_net M E batch_size experiences.
    induction experiences as [|exp exps IH]; intros st st' Hrun Hst.
    + by injection Hrun as <-.
    + cbn [foldM] in Hrun. apply bind_Some in Hrun as (st1 & Hstep & Hrest).
      eapply IH; [exact Hrest|].
      by eapply experience_step_non_null.
  - intros validation_data capacity.
    assert (Hgen : ∀ b b' : er.ExperienceBuffer Exp,
              foldM val_store b validation_data = Some b' →
              Forall non_null (er.buffer b) → Forall non_null (er.buffer b')).
    { induction validation_data as [|m ms IH]; intros b b' Hrun Hb.
      - by injection Hrun as <-.
      - cbn [foldM] in Hrun. apply bind_Some in Hrun as (b1 & Hm & Hms).
        eapply IH; [exact Hms|]. by eapply val_store_non_null. }
    intros val_replay Hrun. eapply Hgen; [exact Hrun|]. constructor.
  - intros experiences. split; [apply score_inputs_filter|].
    apply Forall_forall. intros exp Hin. by apply list_elem_of_filter in Hin as [? _].
Qed.

End null_actions.

(** ** The score of a draft *)

Lemma foldl_Qplus_Qsum (qs : list Q) (acc : Q) :
  foldl Qplus acc qs == acc + Qsum qs.
Proof.
  revert acc. induction qs as [|q qs IH]; intros acc; simpl.
  - ring.
  - rewrite IH. unfold Qsum. simpl. ring.
Qed.

Lemma py_getitem_nonneg {A} (l : list A) (i : Z) :
  (0 ≤ i)%Z → py_getitem l i = l !! Z.to_nat i.
Proof. intros Hi. unfold py_getitem. by rewrite decide_True. Qed.

Lemma score_sum_prefix (actions : list Z) (rq : list (list Q * Q)) (n : nat) :
  Forall2 (λ a p, py_getitem p.1 a = Some p.2) actions rq →
  (n ≤ length actions)%nat →
  foldM (λ score i, a ← actions !! i;
                    row ← rq.*1 !! i;
                    q ← py_getitem row a;
                    Some (score + q))
        0 (seq 0 n)
  = Some (foldl Qplus 0 (take n rq.*2)).
Proof.
  intros Hrq. induction n as [|n IH]; intros Hn; [done|].
  rewrite seq_S, foldM_app, IH by lia. simpl.
  destruct (lookup_lt_is_Some_2 actions n) as [a Ha]; [lia|].
  destruct (Forall2_lookup_l _ _ _ _ _ Hrq Ha) as ([row q] & Hp & Hget).
  rewrite Ha. simpl. rewrite list_lookup_fmap, Hp. simpl in *.
  rewrite Hget. simpl.
  rewrite (take_S_r _ _ q) by (by rewrite list_lookup_fmap, Hp).
  by rewrite foldl_app.
Qed.

Lemma score_sum_Qsum (actions : list Z) (rq : list (list Q * Q)) :
  Forall2 (λ a p, py_getitem p.1 a = Some p.2) actions rq →
  ∃ score, score_sum actions rq.*1 = Some score ∧ score == Qsum rq.*2.
Proof.
  intros Hrq. eexists. split.
  - unfold score_sum. by apply score_sum_prefix.
  - rewrite firstn_all2
      by (rewrite length_fmap, <- (Forall2_length _ _ _ Hrq); lia).
    rewrite foldl_Qplus_Qsum. ring.
Qed.

Lemma Qsum_zeros {A} (l : list A) (f : A → list Q * Q) :
  (∀ x, (f x).2 = 0) → Qsum (f <$> l).*2 == 0.
Proof.
  intros Hf. induction l as [|x l IH]; [done|].
  unfold Qsum in *. simpl. rewrite Hf, IH. ring.
Qed.

Section score.

Context {DraftState Encoding : Type}.
Context `{!DraftStateAPI DraftState Encoding, !MatchAPI DraftState}.

Abbreviation Exp := (Experience DraftState).
Abbreviation Net := (qNetwork Encoding).

Lemma score_match_Qsum (sess : Session) (Qnet : Net) (m : Match)
    (team : Team) (rq : list (list Q * Q)) :
  filter non_null (processMatch m team) ≠ [] →
  run_outQ sess Qnet (start_encoding <$> filter non_null (processMatch m team))
  = rq.*1 →
  Forall2 (λ exp p, py_getitem p.1 (action_index exp) = Some p.2)
          (filter non_null (processMatch m team)) rq →
  ∃ score, score_match sess Qnet m team = Some score ∧ score == Qsum rq.*2.
Proof.
  intros Hused Hrun Hrq. unfold score_match.
  rewrite score_inputs_filter.
  set (used := filter non_null (processMatch m team)) in *.
  destruct used as [|exp used'] eqn:Hu; [done|]. rewrite <- Hu in *.
  assert (np_stack (start_encoding <$> used) = Some (start_encoding <$> used))
    as -> by (by rewrite Hu).
  simpl. rewrite Hrun.
  rewrite option_guard_True
    by (rewrite !length_fmap; by eapply Forall2_length).
  apply score_sum_Qsum. by apply Forall2_fmap_l.
Qed.

(** C6. When the match has at least one non-null experience for the team,
    the network answers the batch of their start states with one row per
    state, and every taken action indexes its row, [score_match] returns the
    sum of those Q-values; in particular it returns zero when the network
    answers [Q = 0] for every state and action. *)
Theorem score_match_sum (sess : Session) (Qnet : Net) (m : Match)
    (team : Team) :
  (∀ rq : list (list Q * Q),
     filter non_null (processMatch m team) ≠ [] →
     run_outQ sess Qnet
       (start_encoding <$> filter non_null (processMatch m team)) = rq.*1 →
     Forall2 (λ exp p, py_getitem p.1 (action_index exp) = Some p.2)
             (filter non_null (processMatch m team)) rq →
     ∃ score, score_match sess Qnet m team = Some score
              ∧ score == Qsum rq.*2)
  ∧ (∀ num_actions : nat,
       filter non_null (processMatch m team) ≠ [] →
       (∀ inputs, run_outQ sess Qnet inputs
                  = (λ _, replicate num_actions 0) <$> inputs) →
       Forall (λ exp, (0 ≤ action_index exp < Z.of_nat num_actions)%Z)
              (filter non_null (processMatch m team)) →
       ∃ score, score_match sess Qnet m team = Some score ∧ score == 0).
Proof.
  split; [apply score_match_Qsum|].
  intros num_actions Hused Hzero Hrange.
  destruct (score_match_Qsum sess Qnet m team
              ((λ _, (replicate num_actions 0, 0))
                 <$> filter non_null (processMatch m team)))
    as (score & Hscore & Hsum); [done| |..].
  - rewrite Hzero, <- !list_fmap_compose. done.
  - apply Forall2_fmap_r, Forall_Forall2_diag.
    eapply Forall_impl; [exact Hrange|]. intros exp [Hlo Hhi]. simpl.
    rewrite py_getitem_nonneg by done.
    apply lookup_replicate_2. lia.
  - exists score. split; [done|]. rewrite Hsum. by apply Qsum_zeros.
Qed.

End score.

(** ** Predicted and recorded winners *)

Section winners.

Context {DraftState Encoding : Type}.
Context `{!DraftStateAPI DraftState Encoding, !MatchAPI DraftState}.

Abbreviation Exp := (Experience DraftState).
Abbreviation Net := (qNetwork Encoding).

Lemma winning_team_lookup (m : Match) (w : pyval) :
  m !! "winner" = Some w →
  winning_team m = Some (if py_eq_int w 1 then RED_TEAM else BLUE_TEAM).
Proof. intros Hw. unfold winning_team. by rewrite Hw. Qed.

Lemma py_eq_int_false (w : pyval) (n : Z) :
  w ≠ PyInt n → py_eq_int w n = false.
Proof.
  intros Hw. destruct w as [|k| |]; simpl; try done.
  apply bool_decide_eq_false. congruence.
Qed.

Lemma count_accurate_scores (sess : Session) (online_net : Net) (acc : Q)
    (m : Match) (blue_score red_score : Q) (match_winner : Team) :
  score_match sess online_net m BLUE_TEAM = Some blue_score →
  score_match sess online_net m RED_TEAM = Some red_score →
  winning_team m = Some match_winner →
  count_accurate sess online_net acc m
  = Some (if decide (predicted_winner blue_score red_score = match_winner)
          then acc + 1 else acc).
Proof.
  intros Hblue Hred Hwin. unfold count_accurate.
  by rewrite Hblue, Hred, Hwin.
Qed.

(** C9. When the blue and the red score of a match are equal, the predicted
    winner is blue, and the match adds one to the count of accurate
    predictions exactly when its recorded winner is not the red code [1],
    that is when the true winner is blue. *)
Theorem tie_predicts_blue (sess : Session) (online_net : Net) (acc : Q)
    (m : Match) (blue_score red_score : Q) (w : pyval) :
  score_match sess online_net m BLUE_TEAM = Some blue_score →
  score_match sess online_net m RED_TEAM = Some red_score →
  blue_score == red_score →
  m !! "winner" = Some w →
  predicted_winner blue_score red_score = BLUE_TEAM
  ∧ (winning_team m = Some BLUE_TEAM ↔ w ≠ PyInt 1)
  ∧ count_accurate sess online_net acc m
    = Some (if decide (winning_team m = Some BLUE_TEAM)
            then acc + 1 else acc).
Proof.
  intros Hblue Hred Htie Hw.
  assert (Hpred : predicted_winner blue_score red_score = BLUE_TEAM).
  { unfold predicted_winner, Qgeb.
    assert (Qle_bool red_score blue_score = true) as ->; [|done].
    apply Qle_bool_iff. rewrite Htie. apply Qle_refl. }
  pose proof (winning_team_lookup m w Hw) as Hwin.
  split; [exact Hpred|]. split.
  - rewrite Hwin. destruct w as [|k| |]; simpl; try done.
    destruct (bool_decide (k = 1%Z)) eqn:Hk.
    + apply bool_decide_eq_true in Hk as ->. done.
    + apply bool_decide_eq_false in Hk. split; [congruence|done].
  - rewrite (count_accurate_scores _ _ _ _ _ _ _ Hblue Hred Hwin), Hpred, Hwin.
    destruct (py_eq_int w 1); by repeat case_decide.
Qed.

(** C10. For a match whose winner field is anything but the red code [1],
    the unknown-winner value [None] included, [validate_model] takes the
    blue perspective for the validation buffer and blue as the recorded
    winner: storing the match does not fail, and the match counts as an
    accurate prediction exactly when blue is the predicted winner. *)
Theorem default_winner_is_blue (sess : Session) (online_net : Net) (acc : Q)
    (m : Match) (w : pyval) :
  m !! "winner" = Some w →
  w ≠ PyInt 1 →
  winning_team m = Some BLUE_TEAM
  ∧ (∀ val_replay : er.ExperienceBuffer Exp,
       val_store val_replay m
       = Some (foldl store_unless_null val_replay
                 (processMatch m BLUE_TEAM)))
  ∧ (∀ blue_score red_score,
       score_match sess online_net m BLUE_TEAM = Some blue_score →
       score_match sess online_net m RED_TEAM = Some red_score →
       count_accurate sess online_net acc m
       = Some (if decide (predicted_winner blue_score red_score = BLUE_TEAM)
               then acc + 1 else acc)).
Proof.
  intros Hw Hnot_red.
  assert (Hwin : winning_team m = Some BLUE_TEAM).
  { rewrite (winning_team_lookup m w Hw). by rewrite py_eq_int_false. }
  split; [exact Hwin|]. split.
  - intros val_replay. unfold val_store. by rewrite Hwin.
  - intros blue_score red_score Hblue Hred.
    by apply count_accurate_scores.
Qed.

End winners.

(** ** Checkpoints *)

Section checkpoints.

Context {DraftState Encoding Rng : Type}.
Context `{!DraftStateAPI DraftState Encoding, !MatchAPI DraftState,
          !RandomAPI Rng}.

Abbreviation Net := (qNetwork Encoding).
Abbreviation State := (@TrainState DraftState Rng).

(** C4, as the code has it.  At the end of every epoch, whatever its index
    [i], the parameters of the online network are saved under the one path
    [tmp/model_E<train_epochs>.ckpt], named after the number of epochs of the
    run; that path is what [out_path] holds afterwards. *)
Theorem checkpoint_named_after_train_epochs (online_net target_net : Net)
    (training_matches validation_matches : list Match)
    (train_epochs batch_size buffer_size : nat) (st st' : State) (i : nat) :
  epoch online_net target_net training_matches validation_matches
        train_epochs batch_size buffer_size st i = Some st' →
  out_path st' = Some (checkpoint_path train_epochs)
  ∧ checkpoint_path train_epochs
    = "tmp/model_E" +:+ pretty train_epochs +:+ ".ckpt"
  ∧ files st'
    = <[checkpoint_path train_epochs
        := get_collection (sess st') (name online_net)]> (files st).
Proof.
  intros Hrun. apply epoch_effect in Hrun as (_ & _ & Hpath & Hfiles & _).
  done.
Qed.

End checkpoints.

(** * Further properties of the module *)

(** ** More on the target synchronisation *)

Lemma create_target_update_ops_inv (sess sess' : Session)
    (target_scope online_scope : string) (tau : Q) :
  create_target_update_ops sess target_scope online_scope tau = Some sess' →
  (length (get_collection sess target_scope)
   ≤ length (get_collection sess online_scope))%nat
  ∧ sess' = <[target_scope :=
                zip_with (λ t o, tau * o + (1 - tau) * t)
                  (get_collection sess target_scope)
                  (get_collection sess online_scope)]> sess.
Proof.
  intros Hrun.
  destruct (decide (length (get_collection sess target_scope)
                    ≤ length (get_collection sess online_scope))%nat)
    as [Hle|Hgt].
  - rewrite create_target_update_ops_Some in Hrun by done.
    by injection Hrun as <-.
  - unfold create_target_update_ops in Hrun.
    rewrite blend_ops_None in Hrun by lia. done.
Qed.

Lemma blend_between (tau t o : Q) :
  0 <= tau → tau <= 1 →
  Qmin t o <= tau * o + (1 - tau) * t ∧ tau * o + (1 - tau) * t <= Qmax t o.
Proof.
  intros H0 H1.
  destruct (Qlt_le_dec o t) as [Hot|Hto].
  - rewrite (Q.min_r t o), (Q.max_l t o) by (by apply Qlt_le_weak).
    assert (0 <= tau * (t - o)) by (apply Qmult_le_0_compat; lra).
    assert (0 <= (1 - tau) * (t - o)) by (apply Qmult_le_0_compat; lra).
    split; lra.
  - rewrite (Q.min_l t o), (Q.max_r t o) by done.
    assert (0 <= tau * (o - t)) by (apply Qmult_le_0_compat; lra).
    assert (0 <= (1 - tau) * (o - t)) by (apply Qmult_le_0_compat; lra).
    split; lra.
Qed.

(** X2. For [0 <= tau <= 1] every target variable ends between its former
    value and the value of the online variable it is paired with, its
    distance to the online value multiplied by [1 - tau]: the update moves
    the target towards the online network and does not overshoot. *)
Theorem target_update_between (sess sess' : Session)
    (target_scope online_scope : string) (tau : Q) (i : nat) (t o : Q) :
  0 <= tau → tau <= 1 →
  create_target_update_ops sess target_scope online_scope tau = Some sess' →
  get_collection sess target_scope !! i = Some t →
  get_collection sess online_scope !! i = Some o →
  ∃ t', get_collection sess' target_scope !! i = Some t'
        ∧ t' - o == (1 - tau) * (t - o)
        ∧ Qmin t o <= t' ∧ t' <= Qmax t o.
Proof.
  intros H0 H1 Hrun Ht Ho.
  apply create_target_update_ops_inv in Hrun as [_ ->].
  rewrite get_collection_insert.
  exists (tau * o + (1 - tau) * t). split; [|split].
  - apply lookup_zip_with_Some. by exists t, o.
  - ring.
  - by apply blend_between.
Qed.

(** X3. For [0 <= tau <= 1], when both scopes are the same the update
    leaves every variable with the value it had: it blends each value with
    itself. *)
Theorem target_update_same_scope (sess : Session) (scope : string) (tau : Q) :
  0 <= tau → tau <= 1 →
  ∃ sess', create_target_update_ops sess scope scope tau = Some sess'
           ∧ Forall2 Qeq (get_collection sess' scope)
                         (get_collection sess scope).
Proof.
  intros _ _.
  eexists. split; [by apply create_target_update_ops_Some|].
  rewrite get_collection_insert.
  induction (get_collection sess scope) as [|x xs IH]; simpl;
    constructor; [ring|done].
Qed.

(** ** More on the learning-rate schedule *)

Lemma decay_learning_rate_first_epochs (i : nat) (lr : Q) :
  (i < lr_decay_freq)%nat → decay_learning_rate i lr = lr.
Proof.
  intros Hi. unfold decay_learning_rate.
  rewrite bool_decide_eq_false_2; [done|].
  intros [Hpos Hmod]. rewrite Nat.mod_small in Hmod by done. lia.
Qed.

Lemma learning_rate_after_first_epochs (lr0 : Q) (n : nat) :
  (n ≤ lr_decay_freq)%nat → learning_rate_after lr0 n = lr0.
Proof.
  induction n as [|n IH]; intros Hn; [done|].
  cbn [learning_rate_after]. rewrite IH by lia.
  apply decay_learning_rate_first_epochs. lia.
Qed.

Lemma decay_learning_rate_half_floor (i : nat) (lr : Q) :
  0.50 * min_learning_rate <= lr →
  0.50 * min_learning_rate <= decay_learning_rate i lr.
Proof.
  intros Hlr. unfold decay_learning_rate.
  destruct (bool_decide _ && Qgeb lr min_learning_rate) eqn:Hcond; [|done].
  apply andb_true_iff in Hcond as [_ Hmin]. apply Qgeb_true in Hmin.
  unfold min_learning_rate in *. lra.
Qed.

Lemma decay_learning_rate_below_floor (i : nat) (lr : Q) :
  lr < min_learning_rate → decay_learning_rate i lr = lr.
Proof.
  intros Hlr. unfold decay_learning_rate.
  assert (Qgeb lr min_learning_rate = false) as ->.
  { apply not_true_iff_false. rewrite Qgeb_true. by apply Qlt_not_le. }
  by rewrite andb_false_r.
Qed.

(** X4. A learning rate that starts at half of [min_learning_rate] or above
    never gets below half of [min_learning_rate]. *)
Theorem learning_rate_half_floor (lr0 : Q) (n : nat) :
  0.50 * min_learning_rate <= lr0 →
  0.50 * min_learning_rate <= learning_rate_after lr0 n.
Proof.
  intros Hlr0. induction n as [|n IH]; [done|].
  cbn [learning_rate_after]. by apply decay_learning_rate_half_floor.
Qed.

(** X5. Once the learning rate is below [min_learning_rate] it stays as it
    is for all later epochs. *)
Theorem learning_rate_settles (lr0 : Q) (n k : nat) :
  learning_rate_after lr0 n < min_learning_rate →
  learning_rate_after lr0 (n + k) = learning_rate_after lr0 n.
Proof.
  intros Hbelow. induction k as [|k IH].
  - by rewrite Nat.add_0_r.
  - rewrite Nat.add_succ_r. cbn [learning_rate_after]. rewrite IH.
    by apply decay_learning_rate_below_floor.
Qed.

Section more_runs.

Context {DraftState Encoding Rng : Type}.
Context `{!DraftStateAPI DraftState Encoding, !MatchAPI DraftState,
          !RandomAPI Rng}.

Abbreviation Exp := (Experience DraftState).
Abbreviation Net := (qNetwork Encoding).
Abbreviation State := (@TrainState DraftState Rng).

(** X6. A run of at most [lr_decay_freq] epochs returns with the learning
    rate the online network had when the run began. *)
Theorem short_run_keeps_learning_rate (sess0 : Session)
    (files0 : gmap string (list Q)) (g0 : Rng) (online_net target_net : Net)
    (training_matches validation_matches : list Match)
    (train_epochs batch_size buffer_size : nat) (load_model : bool)
    (losses : list Q) (acc : Q) (st : State) :
  trainNetwork sess0 files0 g0 online_net target_net training_matches
    validation_matches train_epochs batch_size buffer_size load_model
  = Some (losses, acc, st) →
  (train_epochs ≤ lr_decay_freq)%nat →
  online_learning_rate st = learning_rate online_net.
Proof.
  intros Hrun Hshort.
  apply trainNetwork_effect in Hrun as (_ & Hlr & _).
  rewrite Hlr. by apply learning_rate_after_first_epochs.
Qed.

End more_runs.

(** ** Step counts, the pre-training phase and sampling *)

Lemma store1_length {A} (b : er.ExperienceBuffer A) (x : A) :
  length (er.buffer (er.store1 b x))
  = (S (length (er.buffer b)) `min` er.buffer_size b)%nat.
Proof.
  unfold er.store1. cbn [er.buffer er.buffer_size].
  rewrite length_drop, length_app. cbn [length]. lia.
Qed.

Section counting.

Context {DraftState Encoding Rng : Type}.
Context `{!DraftStateAPI DraftState Encoding, !MatchAPI DraftState,
          !RandomAPI Rng}.

Abbreviation Exp := (Experience DraftState).
Abbreviation Net := (qNetwork Encoding).
Abbreviation State := (@TrainState DraftState Rng).

Lemma learner_submission_counts (online_net : Net) state a (st st' : State) :
  learner_submission online_net state a st = Some st' →
  total_steps st' = total_steps st
  ∧ null_action_count st' = null_action_count st.
Proof.
  unfold learner_submission. intros Hrun.
  repeat (case_match || simplify_option_eq); done.
Qed.

Lemma train_on_batch_counts (online_net target_net : Net) batch_size
    (st st' : State) :
  train_on_batch online_net target_net batch_size st = Some st' →
  total_steps st' = total_steps st
  ∧ null_action_count st' = null_action_count st.
Proof.
  unfold train_on_batch. intros Hrun.
  repeat (case_match || simplify_option_eq); done.
Qed.

Lemma experience_step_counts (online_net target_net : Net) M E batch_size
    (st st' : State) (exp : Exp) :
  experience_step online_net target_net M E batch_size st exp = Some st' →
  match cid_of exp with
  | Some _ => total_steps st' = S (total_steps st)
              ∧ null_action_count st' = null_action_count st
  | None => total_steps st' = total_steps st
            ∧ null_action_count st' = S (null_action_count st)
  end.
Proof.
  unfold experience_step. intros Hrun.
  destruct exp as [[[state [cid pos]] rew] ending].
  cbv beta iota zeta in Hrun. unfold cid_of.
  destruct cid as [c|]; [|by injection Hrun as <-].
  apply bind_Some in Hrun as (st1 & Hlearn & Htrain).
  assert (total_steps st1 = total_steps st
          ∧ null_action_count st1 = null_action_count st) as [Ht1 Hn1].
  { destruct (decide _) in Hlearn.
    - by apply learner_submission_counts in Hlearn as [-> ->].
    - by injection Hlearn as <-. }
  destruct (decide _) in Htrain.
  - apply train_on_batch_counts in Htrain as [-> ->]. simpl.
    by rewrite Ht1, Hn1.
  - injection Htrain as <-. simpl. by rewrite Ht1, Hn1.
Qed.

(** X7. Every experience of the loop is counted once: a non-null one adds
    one to [total_steps], a null one adds one to [null_action_count]. *)
Theorem experience_loop_counts (online_net target_net : Net) M E batch_size
    (experiences : list Exp) (st st' : State) :
  foldM (experience_step online_net target_net M E batch_size) st experiences
  = Some st' →
  total_steps st' = (total_steps st + steps_of experiences)%nat
  ∧ (null_action_count st' + steps_of experiences
     = null_action_count st + length experiences)%nat.
Proof.
  revert st. induction experiences as [|exp exps IH]; intros st Hrun.
  - injection Hrun as <-. unfold steps_of. simpl. lia.
  - cbn [foldM] in Hrun. apply bind_Some in Hrun as (st1 & Hstep & Hrest).
    apply experience_step_counts in Hstep. apply IH in Hrest as [Ht Hn].
    unfold steps_of in *.
    destruct (cid_of exp) as [c|] eqn:Hc; destruct Hstep as [Ht1 Hn1].
    + rewrite filter_cons_True by (unfold non_null; rewrite Hc; by eexists).
      simpl. lia.
    + rewrite filter_cons_False
        by (unfold non_null; rewrite Hc; by intros [??]).
      simpl. lia.
Qed.

Lemma pre_training_step (online_net target_net : Net) M E batch_size
    (st : State) (exp : Exp) :
  (is_Some (cid_of exp) → (total_steps st + 1 < 10 * batch_size)%nat) →
  experience_step online_net target_net M E batch_size st exp
  = Some match cid_of exp with
         | Some _ =>
             with_total_steps (S (total_steps st))
               (with_epsilon (epsilon_decay M E (epsilon st))
                  (store_experience exp st))
         | None => with_null_action_count (S (null_action_count st)) st
         end.
Proof.
  intros Hsteps. unfold experience_step.
  destruct exp as [[[state [cid pos]] rew] ending].
  cbv beta iota zeta. unfold cid_of.
  destruct cid as [c|]; [|done].
  assert (total_steps st + 1 < 10 * batch_size)%nat by (apply Hsteps; by eexists).
  rewrite decide_False by (cbn; lia). cbn [mbind option_bind].
  rewrite decide_False by (cbn; lia). done.
Qed.

(** X8. While [total_steps] stays below [10 * batch_size] the experience
    loop cannot fail and touches neither the session nor the random
    generator: it only fills the replay buffer with the non-null
    experiences and lowers [epsilon]. *)
Theorem pre_training_phase (online_net target_net : Net) M E batch_size
    (experiences : list Exp) (st : State) :
  (total_steps st + steps_of experiences < 10 * batch_size)%nat →
  ∃ st',
    foldM (experience_step online_net target_net M E batch_size)
          st experiences = Some st'
    ∧ sess st' = sess st
    ∧ rng st' = rng st
    ∧ experience_replay st'
      = foldl store_unless_null (experience_replay st) experiences
    ∧ epsilon st'
      = Nat.iter (steps_of experiences) (epsilon_decay M E) (epsilon st).
Proof.
  revert st. induction experiences as [|exp exps IH]; intros st Hsteps.
  - by exists st.
  - unfold steps_of in Hsteps. cbn [foldM].
    destruct exp as [[[state [[c|] pos]] rew] ending].
    + rewrite filter_cons_True in Hsteps by (by eexists).
      cbn [length] in Hsteps.
      rewrite pre_training_step by (intros _; lia).
      cbn [mbind option_bind cid_of].
      edestruct IH as (st' & Hrun & Hsess & Hrng & Hbuf & Heps);
        [|exists st'; split; [exact Hrun|]].
      { unfold steps_of. cbn. lia. }
      rewrite Hsess, Hrng, Hbuf, Heps. repeat split.
      unfold steps_of. rewrite filter_cons_True by (by eexists).
      cbn [length]. by rewrite Nat.iter_succ_r.
    + rewrite filter_cons_False in Hsteps by (by intros [??]).
      rewrite pre_training_step by (by intros [??]).
      cbn [mbind option_bind cid_of].
      edestruct IH as (st' & Hrun & Hsess & Hrng & Hbuf & Heps);
        [|exists st'; split; [exact Hrun|]].
      { unfold steps_of. cbn. lia. }
      rewrite Hsess, Hrng, Hbuf, Heps. unfold steps_of.
      by rewrite filter_cons_False by (by intros [??]).
Qed.

Lemma learner_submission_replay (online_net : Net) state a (st st' : State) :
  learner_submission online_net state a st = Some st' →
  experience_replay st' = experience_replay st
  ∨ ∃ exp, experience_replay st' = er.store [exp] (experience_replay st).
Proof.
  intros Hrun. unfold learner_submission in Hrun.
  apply bind_Some in Hrun as (pred_act & _ & Hrun).
  destruct (formatAction state pred_act) as [cid pos].
  destruct (decide _) in Hrun.
  - apply bind_Some in Hrun as (n & _ & Hrun). injection Hrun as <-.
    right. by eexists.
  - destruct (decide _) in Hrun; [|injection Hrun as <-; by left].
    destruct (random_random (rng st)) as [draw g].
    destruct (Qltb _ _) in Hrun; injection Hrun as <-; [|by left].
    right. by eexists.
Qed.

Lemma store_keeps_filled {A} (b : er.ExperienceBuffer A) (x : A)
    (capacity : nat) :
  er.buffer_size b = capacity →
  (length (er.buffer b) ≤ capacity)%nat →
  er.buffer_size (er.store [x] b) = capacity
  ∧ (length (er.buffer (er.store [x] b)) ≤ capacity)%nat
  ∧ (S (length (er.buffer b)) `min` capacity
     ≤ length (er.buffer (er.store [x] b)))%nat
  ∧ (length (er.buffer b) ≤ length (er.buffer (er.store [x] b)))%nat.
Proof.
  intros Hcap Hle. unfold er.store. cbn [foldl].
  rewrite store1_length, Hcap. repeat split; [done|lia..].
Qed.

(** X9. Through the experience loop the replay buffer never exceeds its
    capacity and holds at least [min(buffer_size, total_steps)]
    experiences; so once [10 * batch_size] steps are taken, under the
    assertion [10 * batch_size <= buffer_size] of [trainNetwork], sampling a
    batch of [batch_size] experiences does not fail. *)
Theorem replay_buffer_filled (online_net target_net : Net) M E batch_size
    (experiences : list Exp) (st st' : State) :
  foldM (experience_step online_net target_net M E batch_size) st experiences
  = Some st' →
  buffer_filled (er.buffer_size (experience_replay st)) st →
  buffer_filled (er.buffer_size (experience_replay st)) st'
  ∧ ((10 * batch_size ≤ er.buffer_size (experience_replay st))%nat →
     (10 * batch_size ≤ total_steps st')%nat →
     ∀ g, is_Some (er_sample (experience_replay st') batch_size g)).
Proof.
  set (capacity := er.buffer_size (experience_replay st)).
  intros Hrun Hst.
  assert (Hst' : buffer_filled capacity st').
  { clearbody capacity. revert st Hrun Hst.
    induction experiences as [|exp exps IH]; intros st Hrun Hst.
    - by injection Hrun as <-.
    - cbn [foldM] in Hrun. apply bind_Some in Hrun as (st1 & Hstep & Hrest).
      eapply IH; [exact Hrest|]. clear IH Hrest.
      destruct Hst as (Hcap & Hle & Hmin).
      pose proof (experience_step_counts _ _ _ _ _ _ _ _ Hstep) as Hcount.
      unfold experience_step in Hstep.
      destruct exp as [[[state [cid pos]] rew] ending].
      cbv beta iota zeta in Hstep. unfold cid_of in Hcount.
      destruct cid as [c|].
      2: { injection Hstep as <-. by repeat split. }
      destruct Hcount as [Hts _].
      apply bind_Some in Hstep as (st2 & Hlearn & Htrain).
      pose proof (store_keeps_filled (experience_replay st)
                    (state, (Some c, pos), rew, ending) capacity Hcap Hle)
        as (Hc1 & Hle1 & Hl1 & _).
      assert (er.buffer_size (experience_replay st2) = capacity
              ∧ (length (er.buffer (experience_replay st2)) ≤ capacity)%nat
              ∧ (S (length (er.buffer (experience_replay st))) `min` capacity
                 ≤ length (er.buffer (experience_replay st2)))%nat)
        as (Hc2 & Hle2 & Hl2).
      { destruct (decide _) in Hlearn.
        - apply learner_submission_replay in Hlearn as [Heq|[exp' Heq]];
            rewrite Heq.
          + repeat split; [exact Hc1|exact Hle1|exact Hl1].
          + pose proof (store_keeps_filled _ exp' capacity Hc1 Hle1)
              as (Hc3 & Hle3 & _ & Hl3).
            repeat split; [exact Hc3|exact Hle3|].
            etrans; [exact Hl1|exact Hl3].
        - injection Hlearn as <-.
          repeat split; [exact Hc1|exact Hle1|exact Hl1]. }
      assert (experience_replay st1 = experience_replay st2) as Heq.
      { destruct (decide _) in Htrain.
        - by apply train_on_batch_replay in Htrain.
        - by injection Htrain as <-. }
      unfold buffer_filled. rewrite Heq, Hts. repeat split; [done|done|lia]. }
  split; [exact Hst'|].
  intros Hassert Hsteps g. destruct Hst' as (Hcap & Hle & Hmin).
  unfold er_sample, random_sample.
  rewrite decide_True by lia. by eexists.
Qed.

End counting.

(** ** Failures and results of whole runs *)

Lemma checkpoint_path_not_restored (train_epochs : nat) :
  checkpoint_path train_epochs ≠ "tmp/model.ckpt".
Proof. unfold checkpoint_path. simpl. discriminate. Qed.

Section run_results.

Context {DraftState Encoding Rng : Type}.
Context `{!DraftStateAPI DraftState Encoding, !MatchAPI DraftState,
          !RandomAPI Rng}.

Abbreviation Exp := (Experience DraftState).
Abbreviation Net := (qNetwork Encoding).
Abbreviation State := (@TrainState DraftState Rng).

Lemma epoch_losses (online_net target_net : Net)
    (training_matches validation_matches : list Match)
    (train_epochs batch_size buffer_size : nat) (st st' : State) (i : nat) :
  epoch online_net target_net training_matches validation_matches
        train_epochs batch_size buffer_size st i = Some st' →
  length (loss_over_epochs st') = S (length (loss_over_epochs st)).
Proof.
  unfold epoch. intros Hrun.
  apply bind_Some in Hrun as ([shuffled g] & _ & Hrun).
  apply bind_Some in Hrun as (st1 & Hloop & Hrun).
  apply bind_Some in Hrun as ([[val_loss val_acc] g1] & _ & Hrun).
  apply bind_Some in Hrun as ([[loss acc] g2] & _ & Hrun).
  injection Hrun as <-.
  apply match_loop_frame in Hloop as [Hk _].
  unfold kept in Hk. injection Hk as _ _ Hlosses _ _.
  cbn in Hlosses. cbn. rewrite Hlosses, length_app. cbn. lia.
Qed.

Lemma epochs_losses (online_net target_net : Net)
    (training_matches validation_matches : list Match)
    (train_epochs batch_size buffer_size : nat) (indices : list nat)
    (st st' : State) :
  foldM (epoch online_net target_net training_matches validation_matches
           train_epochs batch_size buffer_size) st indices = Some st' →
  length (loss_over_epochs st')
  = (length (loss_over_epochs st) + length indices)%nat.
Proof.
  revert st. induction indices as [|i indices IH]; intros st Hrun.
  - injection Hrun as <-. simpl. lia.
  - cbn [foldM] in Hrun. apply bind_Some in Hrun as (st1 & Hi & Hrest).
    apply epoch_losses in Hi. apply IH in Hrest. simpl. lia.
Qed.

(** X10. A call with [train_epochs = 0] does not return: no epoch assigns
    [train_acc], which the return statement reads. *)
Theorem trainNetwork_zero_epochs (sess0 : Session)
    (files0 : gmap string (list Q)) (g0 : Rng) (online_net target_net : Net)
    (training_matches validation_matches : list Match)
    (batch_size buffer_size : nat) (load_model : bool) :
  trainNetwork sess0 files0 g0 online_net target_net training_matches
    validation_matches 0 batch_size buffer_size load_model = None.
Proof.
  unfold trainNetwork.
  destruct (guard _) as [?|]; [|done]. cbn [mbind option_bind].
  destruct (if load_model then _ else _) as [sess1|]; [|done].
  cbn [mbind option_bind].
  by destruct (create_target_initialization_ops _ _ _) as [sess2|].
Qed.

(** X11. Before any epoch, a replay buffer smaller than [10 * batch_size]
    makes the call fail, and so does, for a freshly initialised model, an
    online network with fewer variables than the target network. *)
Theorem trainNetwork_startup_failures (sess0 : Session)
    (files0 : gmap string (list Q)) (g0 : Rng) (online_net target_net : Net)
    (training_matches validation_matches : list Match)
    (train_epochs batch_size buffer_size : nat) :
  ((buffer_size < 10 * batch_size)%nat →
   ∀ load_model,
     trainNetwork sess0 files0 g0 online_net target_net training_matches
       validation_matches train_epochs batch_size buffer_size load_model
     = None)
  ∧ ((length (get_collection sess0 (name online_net))
      < length (get_collection sess0 (name target_net)))%nat →
     trainNetwork sess0 files0 g0 online_net target_net training_matches
       validation_matches train_epochs batch_size buffer_size false
     = None).
Proof.
  split.
  - intros Hsmall load_model. unfold trainNetwork.
    by rewrite option_guard_False by lia.
  - intros Hfewer. unfold trainNetwork.
    destruct (guard _) as [?|]; [|done]. cbn [mbind option_bind].
    unfold create_target_initialization_ops, create_target_update_ops.
    by rewrite blend_ops_None.
Qed.

(** X12. A call that returns hands back one loss per epoch, and has left
    every checkpoint file as it was except the one named after
    [train_epochs], which holds the parameters of the online network at the
    end of the run; in particular it has not written [tmp/model.ckpt], the
    file that [load_model] restores. *)
Theorem trainNetwork_results (sess0 : Session)
    (files0 : gmap string (list Q)) (g0 : Rng) (online_net target_net : Net)
    (training_matches validation_matches : list Match)
    (train_epochs batch_size buffer_size : nat) (load_model : bool)
    (losses : list Q) (acc : Q) (st : State) :
  trainNetwork sess0 files0 g0 online_net target_net training_matches
    validation_matches train_epochs batch_size buffer_size load_model
  = Some (losses, acc, st) →
  length losses = train_epochs
  ∧ files st !! checkpoint_path train_epochs
    = Some (get_collection (sess st) (name online_net))
  ∧ (∀ path, path ≠ checkpoint_path train_epochs →
             files st !! path = files0 !! path)
  ∧ files st !! "tmp/model.ckpt" = files0 !! "tmp/model.ckpt".
Proof.
  intros Hrun.
  pose proof (trainNetwork_effect _ _ _ _ _ _ _ _ _ _ _ _ _ _ Hrun)
    as (_ & _ & _ & _ & Hfiles).
  split; [|rewrite Hfiles; split; [|split]].
  - unfold trainNetwork in Hrun.
    apply bind_Some in Hrun as (_ & _ & Hrun).
    apply bind_Some in Hrun as (sess1 & _ & Hrun).
    apply bind_Some in Hrun as (sess2 & _ & Hrun).
    apply bind_Some in Hrun as (st1 & Hepochs & Hrun).
    apply bind_Some in Hrun as (acc1 & _ & Hrun).
    injection Hrun as <- _ _.
    apply epochs_losses in Hepochs. rewrite Hepochs, length_seq. done.
  - apply lookup_insert_eq.
  - intros path Hpath. by rewrite lookup_insert_ne.
  - rewrite lookup_insert_ne; [done|]. apply checkpoint_path_not_restored.
Qed.

End run_results.

(** ** Failures and results of validation and scoring *)

Lemma foldM_None_elem {S A} (body : S → A → option S) (st : S) (x : A)
    (xs : list A) :
  x ∈ xs → (∀ st, body st x = None) → foldM body st xs = None.
Proof.
  intros Hin Hx. revert st.
  induction xs as [|y ys IH]; intros st; [by apply elem_of_nil in Hin|].
  simpl. destruct (body st y) as [st1|] eqn:Hy; [|done]. simpl.
  apply elem_of_cons in Hin as [->|Hin]; [by rewrite Hx in Hy|by apply IH].
Qed.

Section validation.

Context {DraftState Encoding Rng : Type}.
Context `{!DraftStateAPI DraftState Encoding, !MatchAPI DraftState,
          !RandomAPI Rng}.

Abbreviation Exp := (Experience DraftState).
Abbreviation Net := (qNetwork Encoding).
Abbreviation State := (@TrainState DraftState Rng).

Lemma store_unless_null_all_null (b : er.ExperienceBuffer Exp)
    (experiences : list Exp) :
  filter non_null experiences = [] →
  foldl store_unless_null b experiences = b.
Proof.
  revert b. induction experiences as [|exp exps IH]; intros b Hnull; [done|].
  destruct exp as [[[state [[c|] pos]] rew] ending].
  - by rewrite filter_cons_True in Hnull by (by eexists).
  - rewrite filter_cons_False in Hnull by (by intros [??]).
    simpl. by apply IH.
Qed.

Lemma val_store_all_null (b b' : er.ExperienceBuffer Exp) (m : Match) :
  (∀ team, filter non_null (processMatch m team) = []) →
  val_store b m = Some b' → b' = b.
Proof.
  intros Hnull Hrun. unfold val_store in Hrun.
  apply bind_Some in Hrun as (team & _ & Hrun). injection Hrun as <-.
  by apply store_unless_null_all_null.
Qed.

Lemma val_replay_all_null (validation_data : list Match)
    (b b' : er.ExperienceBuffer Exp) :
  (∀ m team, m ∈ validation_data →
             filter non_null (processMatch m team) = []) →
  foldM val_store b validation_data = Some b' → b' = b.
Proof.
  revert b. induction validation_data as [|m ms IH]; intros b Hnull Hrun.
  - by injection Hrun as <-.
  - cbn [foldM] in Hrun. apply bind_Some in Hrun as (b1 & Hm & Hms).
    apply val_store_all_null in Hm as ->;
      [|intros team; apply Hnull, list_elem_of_here].
    apply IH in Hms; [done|].
    intros m' team Hin. by apply Hnull, list_elem_of_further.
Qed.

Lemma validate_model_no_experiences_None (sess : Session)
    (validation_data : list Match) (online_net target_net : Net) (g : Rng) :
  (∀ A g, (random_choose A [] 0 g).1 = []) →
  (∀ m team, m ∈ validation_data →
             filter non_null (processMatch m team) = []) →
  validate_model sess validation_data online_net target_net g = None.
Proof.
  intros Hchoose Hnull. unfold validate_model.
  destruct (foldM val_store _ validation_data) as [b|] eqn:Hstore; [|done].
  apply val_replay_all_null in Hstore as ->; [|done].
  cbn [mbind option_bind]. unfold er_sample, random_sample, er.getBufferSize.
  cbn [er.new er.buffer length]. rewrite decide_True by lia.
  cbn [mbind option_bind].
  pose proof (Hchoose Exp g) as Hempty.
  destruct (random_choose Exp [] 0 g) as [val_experiences g'].
  cbn in Hempty. by subst.
Qed.

(** X13. [validate_model] fails when a match of the validation data has no
    ["winner"] entry. *)
Theorem validate_model_missing_winner (sess : Session)
    (validation_data : list Match) (online_net target_net : Net) (g : Rng)
    (m : Match) :
  m ∈ validation_data → m !! "winner" = None →
  validate_model sess validation_data online_net target_net g = None.
Proof.
  intros Hin Hwinner. unfold validate_model.
  rewrite (foldM_None_elem val_store _ m); [done|done|].
  intros b. unfold val_store, winning_team. by rewrite Hwinner.
Qed.

(** X14. When sampling nothing from an empty buffer gives nothing,
    [validate_model] fails on data without any non-null experience, the
    empty list of matches included; and a call of [trainNetwork] with no
    validation match fails. *)
Theorem validate_model_no_experiences :
  (∀ A g, (random_choose A [] 0 g).1 = []) →
  (∀ (sess : Session) (validation_data : list Match)
     (online_net target_net : Net) (g : Rng),
     (∀ m team, m ∈ validation_data →
                filter non_null (processMatch m team) = []) →
     validate_model sess validation_data online_net target_net g = None)
  ∧ (∀ (sess0 : Session) (files0 : gmap string (list Q)) (g0 : Rng)
       (online_net target_net : Net) (training_matches : list Match)
       (train_epochs batch_size buffer_size : nat) (load_model : bool),
       trainNetwork sess0 files0 g0 online_net target_net training_matches
         [] train_epochs batch_size buffer_size load_model = None).
Proof.
  intros Hchoose. split.
  - intros. by apply validate_model_no_experiences_None.
  - intros. unfold trainNetwork.
    destruct (guard _) as [?|]; [|done]. cbn [mbind option_bind].
    destruct (if load_model then _ else _) as [sess1|]; [|done].
    cbn [mbind option_bind].
    destruct (create_target_initialization_ops _ _ _) as [sess2|]; [|done].
    cbn [mbind option_bind].
    destruct train_epochs as [|n]; [done|].
    cbn [seq foldM].
    destruct (epoch _ _ _ _ _ _ _ _ _) as [st1|] eqn:Hepoch; [|done].
    exfalso. unfold epoch in Hepoch.
    apply bind_Some in Hepoch as ([shuffled g] & _ & Hepoch).
    apply bind_Some in Hepoch as (st2 & _ & Hepoch).
    apply bind_Some in Hepoch as (r & Hval & _).
    rewrite validate_model_no_experiences_None in Hval; [done|done|].
    intros m team Hin. by apply elem_of_nil in Hin.
Qed.

Lemma count_accurate_step (sess : Session) (online_net : Net) (acc acc' : Q)
    (m : Match) :
  count_accurate sess online_net acc m = Some acc' →
  acc <= acc' ∧ acc' <= acc + 1.
Proof.
  unfold count_accurate. intros Hrun.
  apply bind_Some in Hrun as (b & _ & Hrun).
  apply bind_Some in Hrun as (r & _ & Hrun).
  apply bind_Some in Hrun as (w & _ & Hrun).
  injection Hrun as <-. case_decide; split; lra.
Qed.

Lemma count_accurate_bounds (sess : Session) (online_net : Net)
    (validation_data : list Match) (acc acc' : Q) :
  foldM (count_accurate sess online_net) acc validation_data = Some acc' →
  acc <= acc' ∧ acc' <= acc + inject_Z (Z.of_nat (length validation_data)).
Proof.
  revert acc. induction validation_data as [|m ms IH]; intros acc Hrun.
  - injection Hrun as <-. change (inject_Z (Z.of_nat (length []))) with 0.
    split; lra.
  - cbn [foldM] in Hrun. apply bind_Some in Hrun as (acc1 & Hm & Hms).
    apply count_accurate_step in Hm as [Hlo Hhi].
    apply IH in Hms as [Hlo' Hhi'].
    cbn [length]. rewrite Nat2Z.inj_succ. unfold Z.succ.
    rewrite inject_Z_plus. change (inject_Z 1) with 1. split; lra.
Qed.

(** X15. The accuracy that [validate_model] returns lies between 0 and 1. *)
Theorem validate_model_accuracy_bounds (sess : Session)
    (validation_data : list Match) (online_net target_net : Net) (g g' : Rng)
    (loss_value val_accuracy : Q) :
  validate_model sess validation_data online_net target_net g
  = Some (loss_value, val_accuracy, g') →
  0 <= val_accuracy ∧ val_accuracy <= 1.
Proof.
  unfold validate_model. intros Hrun.
  apply bind_Some in Hrun as (val_replay & _ & Hrun).
  apply bind_Some in Hrun as ([val_experiences g1] & _ & Hrun).
  apply bind_Some in Hrun as (first & _ & Hrun).
  apply bind_Some in Hrun as (val_targets & _ & Hrun).
  apply bind_Some in Hrun as (accurate & Hcount & Hrun).
  apply bind_Some in Hrun as (Hlen & _ & Hrun).
  injection Hrun as _ <- _.
  apply count_accurate_bounds in Hcount as [Hlo Hhi].
  assert (Hpos : 0 < inject_Z (Z.of_nat (length validation_data))).
  { rewrite <- (Zlt_Qlt 0). lia. }
  split.
  - apply Qle_shift_div_l; [done|]. lra.
  - apply Qle_shift_div_r; [done|]. lra.
Qed.

(** X16. When every match has a winner entry and the network scores blue at
    least as high as red on every match, the accuracy loop counts exactly
    the matches that red did not win. *)
Theorem accuracy_when_blue_favoured (sess : Session) (online_net : Net)
    (validation_data : list Match) :
  (∀ m, m ∈ validation_data →
        ∃ blue_score red_score w,
          score_match sess online_net m BLUE_TEAM = Some blue_score
          ∧ score_match sess online_net m RED_TEAM = Some red_score
          ∧ red_score <= blue_score
          ∧ m !! "winner" = Some w) →
  ∃ accurate_predictions,
    foldM (count_accurate sess online_net) 0 validation_data
    = Some accurate_predictions
    ∧ accurate_predictions
      == inject_Z (Z.of_nat (length (filter
           (λ m, winning_team m = Some BLUE_TEAM) validation_data))).
Proof.
  intros Hdata.
  assert (Hgen : ∀ acc, ∃ acc',
            foldM (count_accurate sess online_net) acc validation_data
            = Some acc'
            ∧ acc' == acc + inject_Z (Z.of_nat (length (filter
                 (λ m, winning_team m = Some BLUE_TEAM) validation_data)))).
  { induction validation_data as [|m ms IH]; intros acc.
    - exists acc. split; [done|]. cbn. ring.
    - destruct (Hdata m) as (b & r & w & Hb & Hr & Hle & Hw);
        [apply list_elem_of_here|].
      assert (Hpred : predicted_winner b r = BLUE_TEAM).
      { unfold predicted_winner, Qgeb.
        by apply Qle_bool_iff in Hle as ->. }
      destruct (winning_team m) as [team|] eqn:Hteam;
        [|unfold winning_team in Hteam; by rewrite Hw in Hteam].
      cbn [foldM].
      rewrite (count_accurate_scores _ _ _ _ _ _ _ Hb Hr Hteam), Hpred.
      cbn [mbind option_bind].
      destruct (IH (λ m' Hin, Hdata m' (list_elem_of_further _ _ _ Hin))
                   (if decide (BLUE_TEAM = team) then acc + 1 else acc))
        as (acc' & Hrun & Hacc').
      exists acc'. split; [exact Hrun|]. rewrite Hacc'.
      destruct team.
      + rewrite decide_True by done.
        rewrite filter_cons_True by done. cbn [length].
        rewrite Nat2Z.inj_succ. unfold Z.succ. rewrite inject_Z_plus.
        change (inject_Z 1) with 1. ring.
      + rewrite decide_False by done.
        rewrite filter_cons_False by (rewrite Hteam; by intros [=]). done. }
  destruct (Hgen 0) as (acc' & Hrun & Hacc').
  exists acc'. split; [exact Hrun|]. rewrite Hacc'. ring.
Qed.

(** X17. [score_match] fails when the match has no non-null experience for
    the team, and when the network answers with a number of rows other than
    the number of states it was given. *)
Theorem score_match_failures (sess : Session) (Qnet : Net) (m : Match)
    (team : Team) :
  (filter non_null (processMatch m team) = [] →
   score_match sess Qnet m team = None)
  ∧ (length (run_outQ sess Qnet
               (start_encoding <$> filter non_null (processMatch m team)))
     ≠ length (filter non_null (processMatch m team)) →
     score_match sess Qnet m team = None).
Proof.
  unfold score_match. rewrite score_inputs_filter.
  split.
  - intros ->. done.
  - intros Hrows.
    destruct (np_stack _) as [stacked|] eqn:Hstack; [|done].
    cbn [mbind option_bind].
    assert (stacked = start_encoding <$> filter non_null (processMatch m team))
      as ->.
    { unfold np_stack in Hstack. by destruct (_ <$> _); simplify_eq. }
    rewrite option_guard_False; [done|].
    rewrite length_fmap. congruence.
Qed.

End validation.

(** ** The order of the two updates, and the number of steps of a run *)

Section updates_and_steps.

Context {DraftState Encoding Rng : Type}.
Context `{!DraftStateAPI DraftState Encoding, !MatchAPI DraftState,
          !RandomAPI Rng}.

Abbreviation Exp := (Experience DraftState).
Abbreviation Net := (qNetwork Encoding).
Abbreviation State := (@TrainState DraftState Rng).


Lemma epoch_steps_app (xs ys : list Match) :
  epoch_steps (xs ++ ys) = (epoch_steps xs + epoch_steps ys)%nat.
Proof.
  induction xs as [|x xs IH]; [done|].
  cbn [app epoch_steps foldr]. fold (epoch_steps (xs ++ ys)).
  fold (epoch_steps xs). lia.
Qed.

Lemma epoch_steps_Permutation (xs ys : list Match) :
  xs ≡ₚ ys → epoch_steps xs = epoch_steps ys.
Proof.
  induction 1 as [|x xs ys _ IH|x y xs|xs ys zs _ IH1 _ IH2].
  - done.
  - cbn [epoch_steps foldr]. fold (epoch_steps xs) (epoch_steps ys). lia.
  - cbn [epoch_steps foldr]. fold (epoch_steps xs). lia.
  - congruence.
Qed.

Lemma epoch_epsilon (online_net target_net : Net)
    (training_matches validation_matches : list Match)
    (train_epochs batch_size buffer_size : nat) (st st' : State) (i : nat) :
  (∀ g, (random_choose Match training_matches (length training_matches) g).1
        ≡ₚ training_matches) →
  epoch online_net target_net training_matches validation_matches
        train_epochs batch_size buffer_size st i = Some st' →
  epsilon st'
  = Nat.iter (epoch_steps training_matches)
      (epsilon_decay (length training_matches) train_epochs) (epsilon st).
Proof.
  intros Hshuffle Hrun. unfold epoch in Hrun.
  apply bind_Some in Hrun as ([shuffled g] & Hsample & Hrun).
  apply bind_Some in Hrun as (st1 & Hloop & Hrun).
  apply bind_Some in Hrun as ([[val_loss val_acc] g1] & _ & Hrun).
  apply bind_Some in Hrun as ([[loss acc] g2] & _ & Hrun).
  injection Hrun as <-.
  apply match_loop_frame in Hloop as [_ He].
  unfold random_sample in Hsample. rewrite decide_True in Hsample by done.
  injection Hsample as Hsample.
  match type of Hsample with
  | random_choose _ _ _ ?g0 = _ => pose proof (Hshuffle g0) as Hperm
  end.
  rewrite Hsample in Hperm. cbn in Hperm, He. cbn.
  by rewrite He, (epoch_steps_Permutation _ _ Hperm).
Qed.

Lemma epochs_epsilon (online_net target_net : Net)
    (training_matches validation_matches : list Match)
    (train_epochs batch_size buffer_size : nat) (indices : list nat)
    (st st' : State) :
  (∀ g, (random_choose Match training_matches (length training_matches) g).1
        ≡ₚ training_matches) →
  foldM (epoch online_net target_net training_matches validation_matches
           train_epochs batch_size buffer_size) st indices = Some st' →
  epsilon st'
  = Nat.iter (length indices * epoch_steps training_matches)
      (epsilon_decay (length training_matches) train_epochs) (epsilon st).
Proof.
  intros Hshuffle. revert st.
  induction indices as [|i indices IH]; intros st Hrun.
  - by injection Hrun as <-.
  - cbn [foldM] in Hrun. apply bind_Some in Hrun as (st1 & Hi & Hrest).
    apply epoch_epsilon in Hi; [|done]. apply IH in Hrest.
    rewrite Hrest, Hi. cbn [length]. by rewrite <- Nat.iter_add, Nat.add_comm.
Qed.

(** X19. When shuffling returns a permutation of the training matches, a run
    that returns has decremented [epsilon] once for every non-null
    experience of every match, both teams, in every epoch: the final
    [epsilon] is the schedule after [train_epochs * epoch_steps] steps. *)
Theorem trainNetwork_epsilon (sess0 : Session)
    (files0 : gmap string (list Q)) (g0 : Rng) (online_net target_net : Net)
    (training_matches validation_matches : list Match)
    (train_epochs batch_size buffer_size : nat) (load_model : bool)
    (losses : list Q) (acc : Q) (st : State) :
  (∀ g, (random_choose Match training_matches (length training_matches) g).1
        ≡ₚ training_matches) →
  trainNetwork sess0 files0 g0 online_net target_net training_matches
    validation_matches train_epochs batch_size buffer_size load_model
  = Some (losses, acc, st) →
  epsilon st
  = epsilon_after (length training_matches) train_epochs
      (train_epochs * epoch_steps training_matches).
Proof.
  intros Hshuffle Hrun. unfold trainNetwork in Hrun.
  apply bind_Some in Hrun as (_ & _ & Hrun).
  apply bind_Some in Hrun as (sess1 & _ & Hrun).
  apply bind_Some in Hrun as (sess2 & _ & Hrun).
  apply bind_Some in Hrun as (st1 & Hepochs & Hrun).
  apply bind_Some in Hrun as (acc1 & _ & Hrun).
  injection Hrun as _ _ <-.
  apply epochs_epsilon in Hepochs; [|done].
  by rewrite Hepochs, length_seq.
Qed.

End updates_and_steps.

(** * The properties on the small instance *)

Import example.

(** The targets of the blue experiences of a match won by blue. *)
Lemma target_values_witness :
  well_shaped sess0 target_net
  ∧ ∃ updates,
      mapM (batch_target sess0 online_net target_net)
           (processMatch blue_won BLUE_TEAM) = Some updates
      ∧ mapM (val_target sess0 online_net target_net)
             (processMatch blue_won BLUE_TEAM) = Some updates
      ∧ Forall2 (target_spec sess0 online_net target_net)
                (processMatch blue_won BLUE_TEAM) updates.
Proof.
  assert (Hnet : well_shaped sess0 target_net).
  { intros enc. eexists _, _. split; [reflexivity|].
    repeat constructor; discriminate. }
  split; [exact Hnet|].
  exact (target_values sess0 online_net target_net
           (processMatch blue_won BLUE_TEAM) Hnet).
Defined.

(** The first epoch of a run of two epochs saves under
    [tmp/model_E2.ckpt]. *)
Lemma checkpoint_named_after_train_epochs_witness :
  ∃ st', epoch online_net target_net training_matches validation_matches
               2 1 10 state0 0 = Some st'
         ∧ out_path st' = Some "tmp/model_E2.ckpt".
Proof.
  destruct (epoch online_net target_net training_matches validation_matches
              2 1 10 state0 0) as [st'|] eqn:Hrun;
    [|by vm_compute in Hrun].
  exists st'. split; [reflexivity|].
  rewrite (proj1 (checkpoint_named_after_train_epochs _ _ _ _ _ _ _ _ _ _
                    Hrun)).
  vm_compute. reflexivity.
Defined.

(** In a run of two epochs, epoch 0 and epoch 1 both save under
    [tmp/model_E2.ckpt]: afterwards that is the only checkpoint, and none
    is keyed by [0] or by [1]. *)
Lemma epochs_share_one_checkpoint :
  (st1 ← epoch online_net target_net training_matches validation_matches
                2 1 10 state0 0;
   st2 ← epoch online_net target_net training_matches validation_matches
                2 1 10 st1 1;
   Some (out_path st1, out_path st2, dom (files st2),
         files st2 !! "tmp/model_E0.ckpt", files st2 !! "tmp/model_E1.ckpt"))
  = Some (Some "tmp/model_E2.ckpt", Some "tmp/model_E2.ckpt",
          {["tmp/model_E2.ckpt"]}, None, None).
Proof. vm_compute. reflexivity. Qed.

(** The replay buffer after thirty steps, the last ten of them with a
    submission of the learner. *)
Lemma null_actions_skipped_witness :
  (∀ (s : list Z) act, is_Some (formatAction s act).1)
  ∧ ∃ st', foldM (experience_step online_net target_net 2 2 1)
                 loop_start
                 (processMatch blue_won BLUE_TEAM
                    ++ processMatch blue_won RED_TEAM
                    ++ processMatch red_won BLUE_TEAM) = Some st'
           ∧ Forall non_null (er.buffer (experience_replay st')).
Proof.
  assert (Hformat : ∀ (s : list Z) act, is_Some (formatAction s act).1)
    by (intros s act; by eexists).
  split; [exact Hformat|].
  destruct (foldM (experience_step online_net target_net 2 2 1)
              loop_start
              (processMatch blue_won BLUE_TEAM
                 ++ processMatch blue_won RED_TEAM
                 ++ processMatch red_won BLUE_TEAM)) as [st'|] eqn:Hrun;
    [|by vm_compute in Hrun].
  exists st'. split; [reflexivity|].
  eapply (proj1 (null_actions_skipped (Rng:=unit) Hformat));
    [exact Hrun|constructor].
Defined.

(** Ten picks scored by the network that answers zero everywhere. *)
Lemma score_match_sum_witness :
  length (filter non_null (processMatch blue_won BLUE_TEAM)) = 10%nat
  ∧ ∃ score, score_match sess0 zero_net blue_won BLUE_TEAM = Some score
             ∧ score == 0.
Proof.
  split; [reflexivity|].
  apply (proj2 (score_match_sum sess0 zero_net blue_won BLUE_TEAM) 12%nat).
  - discriminate.
  - intros inputs. reflexivity.
  - vm_compute. repeat constructor; discriminate.
Defined.

(** Equal scores under the zero network, for a match that blue won. *)
Lemma tie_predicts_blue_witness :
  predicted_winner 0 0 = BLUE_TEAM
  ∧ count_accurate sess0 zero_net 0 blue_won = Some (0 + 1).
Proof.
  destruct (tie_predicts_blue sess0 zero_net 0 blue_won 0 0 (PyInt 0))
    as (Hpred & _ & Hcount); [reflexivity..|].
  split; [exact Hpred|]. rewrite Hcount. reflexivity.
Defined.

(** A match whose winner is unknown. *)
Lemma default_winner_is_blue_witness :
  winning_team unknown = Some BLUE_TEAM
  ∧ count_accurate sess0 online_net 0 unknown = Some 0.
Proof.
  destruct (default_winner_is_blue sess0 online_net 0 unknown PyNone)
    as (Hwin & _ & Hcount); [reflexivity|discriminate|].
  split; [exact Hwin|].
  rewrite (Hcount 55 67); reflexivity.
Defined.

(** The two updates on a session with two parameters per network. *)
Lemma soft_update_tau_one_and_zero_witness :
  (∃ sess', create_target_update_ops sess0 "target" "online" 1.0 = Some sess'
            ∧ Forall2 Qeq (get_collection sess' "target") [1; 2])
  ∧ (∃ sess', create_target_update_ops sess0 "target" "online" 0.0 = Some sess'
              ∧ Forall2 Qeq (get_collection sess' "target") [0; 0]).
Proof.
  destruct (soft_update_tau_one_and_zero sess0 "target" "online")
    as (_ & (s1 & Hs1 & Hone & _) & (s0 & Hs0 & Hzero)); [reflexivity|].
  split; [by exists s1 | by exists s0].
Defined.

(** Two target parameters against one online parameter: the hard copy
    fails. *)
Lemma hard_copy_fails_iff_online_shorter_witness :
  create_target_initialization_ops
    (<["online" := [1]]> {["target" := [0; 0]]}) "target" "online" = None.
Proof.
  apply hard_copy_fails_iff_online_shorter. vm_compute. lia.
Defined.

(** One target parameter against two online parameters: the sizes differ
    and the hard copy goes through, copying the first online parameter. *)
Lemma hard_copy_ignores_surplus_online :
  let sess : Session := <["online" := [1; 2]]> {["target" := [0]]} in
  length (get_collection sess "target")
  ≠ length (get_collection sess "online")
  ∧ ∃ sess', create_target_initialization_ops sess "target" "online"
             = Some sess'
             ∧ Forall2 Qeq (get_collection sess' "target") [1].
Proof.
  split; [by vm_compute|].
  eexists. split; [by vm_compute|].
  vm_compute. by repeat constructor.
Qed.


(** ** Further properties on the small instance *)

Abbreviation example_run :=
  (trainNetwork sess0 ∅ () online_net target_net training_matches
     validation_matches 2 1 10 false).

(** A soft update of the session with two parameters per network. *)
Lemma target_update_between_witness :
  ∃ sess' t', create_target_update_ops sess0 "target" "online" tau = Some sess'
              ∧ get_collection sess' "target" !! 1%nat = Some t'
              ∧ 0 <= t' ∧ t' <= 2.
Proof.
  destruct (create_target_update_ops sess0 "target" "online" tau)
    as [sess'|] eqn:Hrun; [|by vm_compute in Hrun].
  destruct (target_update_between sess0 sess' "target" "online" tau 1 0 2)
    as (t' & Ht' & _ & Hlo & Hhi); [by vm_compute..|exact Hrun|done|done|].
  exists sess', t'. split; [reflexivity|]. split; [exact Ht'|].
  split; [exact Hlo|exact Hhi].
Defined.

(** The soft update of [trainNetwork] with the online scope on both
    sides. *)
Lemma target_update_same_scope_witness :
  ∃ sess', create_target_update_ops sess0 "online" "online" tau = Some sess'
           ∧ Forall2 Qeq (get_collection sess' "online") [1; 2].
Proof.
  apply (target_update_same_scope sess0 "online" tau); by vm_compute.
Defined.

(** The learning rate that starts at [0.001], after 105 epochs and for
    the twenty epochs that follow. *)
Lemma learning_rate_half_floor_witness :
  0.50 * min_learning_rate <= learning_rate_after 0.001 105.
Proof. apply learning_rate_half_floor. by vm_compute. Defined.

Lemma learning_rate_settles_witness :
  learning_rate_after 0.001 (105 + 20) = learning_rate_after 0.001 105.
Proof. apply learning_rate_settles. by vm_compute. Defined.

(** The run of two epochs. *)
Lemma short_run_keeps_learning_rate_witness :
  ∃ losses acc st, example_run = Some (losses, acc, st)
                   ∧ online_learning_rate st = 0.001.
Proof.
  destruct example_run as [[[losses acc] st]|] eqn:Hrun;
    [|by vm_compute in Hrun].
  exists losses, acc, st. split; [reflexivity|].
  apply (short_run_keeps_learning_rate _ _ _ _ _ _ _ _ _ _ _ _ _ _ Hrun).
  unfold lr_decay_freq. lia.
Defined.

Lemma trainNetwork_results_witness :
  ∃ losses acc st, example_run = Some (losses, acc, st)
                   ∧ length losses = 2%nat
                   ∧ files st !! "tmp/model.ckpt" = None.
Proof.
  destruct example_run as [[[losses acc] st]|] eqn:Hrun;
    [|by vm_compute in Hrun].
  exists losses, acc, st. split; [reflexivity|].
  destruct (trainNetwork_results _ _ _ _ _ _ _ _ _ _ _ _ _ _ Hrun)
    as (Hlen & _ & _ & Hrestored).
  split; [exact Hlen|]. rewrite Hrestored. reflexivity.
Defined.

Lemma trainNetwork_epsilon_witness :
  ∃ losses acc st, example_run = Some (losses, acc, st)
                   ∧ epsilon st = epsilon_after 2 2 (2 * 40).
Proof.
  destruct example_run as [[[losses acc] st]|] eqn:Hrun;
    [|by vm_compute in Hrun].
  exists losses, acc, st. split; [reflexivity|].
  refine (trainNetwork_epsilon _ _ _ _ _ _ _ _ _ _ _ _ _ _ _ Hrun).
  intros g. reflexivity.
Defined.

(** Thirty steps and three null actions from the start of an epoch. *)
Lemma experience_loop_counts_witness :
  ∃ st', foldM (experience_step online_net target_net 2 2 1) loop_start
               (processMatch blue_won BLUE_TEAM
                  ++ processMatch blue_won RED_TEAM
                  ++ processMatch red_won BLUE_TEAM) = Some st'
         ∧ total_steps st' = 30%nat ∧ null_action_count st' = 3%nat.
Proof.
  destruct (foldM (experience_step online_net target_net 2 2 1) loop_start
              (processMatch blue_won BLUE_TEAM
                 ++ processMatch blue_won RED_TEAM
                 ++ processMatch red_won BLUE_TEAM)) as [st'|] eqn:Hrun;
    [|by vm_compute in Hrun].
  exists st'. split; [reflexivity|].
  destruct (experience_loop_counts _ _ _ _ _ _ _ _ Hrun) as [Ht Hn].
  split; [exact Ht|].
  change (null_action_count st' + 30 = 0 + 33)%nat in Hn. lia.
Defined.

Lemma replay_buffer_filled_witness :
  ∃ st', foldM (experience_step online_net target_net 2 2 1) loop_start
               (processMatch blue_won BLUE_TEAM
                  ++ processMatch blue_won RED_TEAM) = Some st'
         ∧ buffer_filled 10 st'.
Proof.
  destruct (foldM (experience_step online_net target_net 2 2 1) loop_start
              (processMatch blue_won BLUE_TEAM
                 ++ processMatch blue_won RED_TEAM)) as [st'|] eqn:Hrun;
    [|by vm_compute in Hrun].
  exists st'. split; [reflexivity|].
  assert (Hstart : buffer_filled
                     (er.buffer_size (experience_replay loop_start))
                     loop_start).
  { vm_compute. repeat split; lia. }
  exact (proj1 (replay_buffer_filled _ _ _ _ _ _ _ _ Hrun Hstart)).
Defined.

(** Nine steps of pre-training with batches of one experience. *)
Lemma pre_training_phase_witness :
  ∃ st', foldM (experience_step online_net target_net 2 2 1) loop_start
               (take 10 (processMatch blue_won BLUE_TEAM)) = Some st'
         ∧ sess st' = sess0
         ∧ length (er.buffer (experience_replay st')) = 9%nat.
Proof.
  destruct (pre_training_phase online_net target_net 2 2 1
              (take 10 (processMatch blue_won BLUE_TEAM)) loop_start)
    as (st' & Hrun & Hsess & _ & Hbuf & _); [by vm_compute|].
  exists st'. split; [exact Hrun|]. split; [by rewrite Hsess|].
  by rewrite Hbuf.
Defined.

(** A match dictionary without a winner. *)
Lemma validate_model_missing_winner_witness :
  validate_model sess0 [blue_won; ∅] online_net target_net () = None.
Proof.
  apply (validate_model_missing_winner _ _ _ _ _ ∅); [|reflexivity].
  apply list_elem_of_further, list_elem_of_here.
Defined.

(** No validation data. *)
Lemma validate_model_no_experiences_witness :
  validate_model sess0 [] online_net target_net () = None
  ∧ trainNetwork sess0 ∅ () online_net target_net training_matches []
      2 1 10 false = None.
Proof.
  destruct (validate_model_no_experiences (Rng:=unit) (DraftState:=list Z)
              (Encoding:=list Z)) as [Hval Hrun];
    [intros A g; reflexivity|].
  split; [|apply Hrun].
  apply Hval. intros m team Hin. by apply elem_of_nil in Hin.
Defined.

(** Validation on one match won by each side. *)
Lemma validate_model_accuracy_bounds_witness :
  ∃ loss_value val_accuracy g',
    validate_model sess0 [blue_won; red_won] online_net target_net ()
    = Some (loss_value, val_accuracy, g')
    ∧ 0 <= val_accuracy ∧ val_accuracy <= 1.
Proof.
  destruct (validate_model sess0 [blue_won; red_won] online_net target_net ())
    as [[[loss_value val_accuracy] g']|] eqn:Hrun; [|by vm_compute in Hrun].
  exists loss_value, val_accuracy, g'. split; [reflexivity|].
  exact (validate_model_accuracy_bounds _ _ _ _ _ _ _ _ Hrun).
Defined.

(** Two matches, one won by each side, scored by the network that answers
    zero everywhere: blue is predicted twice and one prediction is right. *)
Lemma accuracy_when_blue_favoured_witness :
  ∃ accurate_predictions,
    foldM (count_accurate sess0 zero_net) 0 [blue_won; red_won]
    = Some accurate_predictions
    ∧ accurate_predictions == 1.
Proof.
  destruct (accuracy_when_blue_favoured sess0 zero_net [blue_won; red_won])
    as (accurate & Hrun & Hcount).
  - intros m Hin.
    apply elem_of_cons in Hin as [->|Hin];
      [|apply list_elem_of_singleton in Hin as ->].
    + by exists 0, 0, (PyInt 0).
    + by exists 0, 0, (PyInt 1).
  - exists accurate. split; [exact Hrun|]. rewrite Hcount. reflexivity.
Defined.


(** A buffer of nine experiences for batches of one. *)
Lemma trainNetwork_startup_failures_witness :
  trainNetwork sess0 ∅ () online_net target_net training_matches
    validation_matches 2 1 9 false = None.
Proof.
  apply (proj1 (trainNetwork_startup_failures sess0 ∅ () online_net
                  target_net training_matches validation_matches 2 1 9)).
  lia.
Defined.

(** A network that answers with no row at all. *)
Lemma score_match_failures_witness :
  score_match sess0
    (mkNet (list Z) "online" 0.9 0.001 (λ _ _, []) (λ _ _, [])
       (λ _ _ _ _, 0) (λ _ theta _ _ _, theta))
    blue_won BLUE_TEAM = None.
Proof.
  apply (proj2 (score_match_failures sess0 _ blue_won BLUE_TEAM)).
  vm_compute. discriminate.
Defined.
